(** * wikitextprocessor: the MediaWiki dump parser ([dumpparser.py])

    A shallow embedding of [DumpParser.__iter__] and of its two element
    handlers, [add_namespace] and [make_wikipage], together with the part of
    [xml.etree.ElementTree] they call ([iterparse] events, [find],
    [findtext], [attrib] and [text]).

    Python's [None] is [option]'s [None]; a [dict] keyed by strings is a
    [gmap string _]; an exception is a value of [exn] carried by [Raise]. *)

From stdpp Require Import base strings gmap list fin_maps.

Set Default Proof Using "Type".

(** ** Python values *)

(** The exceptions the live code path can raise: [KeyError] from a
    subscript on a [dict] (it carries the offending key, which is [None]
    when the subscript itself was [None]), and the parse error that
    [iterparse] raises on malformed input. *)
Inductive exn : Type :=
| KeyError (k : option string)
| ParseError.

Inductive result (A : Type) : Type :=
| Ok (a : A)
| Raise (e : exn).
Arguments Ok {A} a.
Arguments Raise {A} e.

(** [d[k]] on a [dict] with string keys; [k] is any Python value the code
    can pass there, i.e. a string or [None]. *)
Definition getitem {V : Type} (d : gmap string V) (k : option string) : result V :=
  match k with
  | None => Raise (KeyError None)
  | Some k' =>
      match d !! k' with
      | Some v => Ok v
      | None => Raise (KeyError (Some k'))
      end
  end.

(** [x or y] where [x] is a string or [None]: the empty string is falsy. *)
Definition py_or (x : option string) (y : string) : string :=
  match x with
  | None => y
  | Some s => if decide (s = "") then y else s
  end.

(** ** The fragment of ElementTree the parser uses *)

Module ET.

#[local] Unset Elimination Schemes.

Inductive Element : Type :=
  mkElement (tag : string) (attrib : gmap string string)
            (text : option string) (children : list Element).

#[local] Set Elimination Schemes.

Definition tag (e : Element) : string :=
  match e with mkElement t _ _ _ => t end.
Definition attrib (e : Element) : gmap string string :=
  match e with mkElement _ a _ _ => a end.
Definition text (e : Element) : option string :=
  match e with mkElement _ _ x _ => x end.
Definition children (e : Element) : list Element :=
  match e with mkElement _ _ _ cs => cs end.

(** Induction over an element and, through [Forall], its children. *)
Section Element_ind.
Variable P : Element → Prop.
Hypothesis step : ∀ t a x cs, Forall P cs → P (mkElement t a x cs).

Fixpoint Element_ind (e : Element) : P e :=
  match e with
  | mkElement t a x cs =>
      step t a x cs
        ((fix go (l : list Element) : Forall P l :=
            match l with
            | [] => @List.Forall_nil _ P
            | c :: l' => @List.Forall_cons _ P c l' (Element_ind c) (go l')
            end) cs)
  end.
End Element_ind.

(** ElementPath rewrites an unprefixed tag name to [{uri}name] when the
    [namespaces] mapping has an entry for the empty prefix. *)
Definition qname (namespaces : gmap string string) (name : string) : string :=
  match namespaces !! "" with
  | Some uri => "{" +:+ uri +:+ "}" +:+ name
  | None => name
  end.

(** [iterfind] for a path of child steps [a/b/...] (a leading [./] selects
    the element itself): every step keeps, in document order, the children
    whose tag is the step's qualified name. *)
Fixpoint iterfind (namespaces : gmap string string) (path : list string)
    (elem : Element) : list Element :=
  match path with
  | [] => [elem]
  | name :: rest =>
      flat_map (iterfind namespaces rest)
        (filter (λ c, tag c = qname namespaces name) (children elem))
  end.

(** [find]: the first match, or [None]. *)
Definition find (namespaces : gmap string string) (path : list string)
    (elem : Element) : option Element :=
  head (iterfind namespaces path elem).

(** [findtext]: the text of the first match, the empty string when that
    element has no text, and [None] (the default) when nothing matches. *)
Definition findtext (namespaces : gmap string string) (path : list string)
    (elem : Element) : option string :=
  match iterfind namespaces path elem with
  | [] => None
  | e :: _ => Some (match text e with None => "" | Some s => s end)
  end.

(** [iterparse(f, events=("start", "end"))] *)
Inductive event : Type := start | end_.

(** The events of a complete element: its start, the events of its
    children in order, its end.  The element handed over with an end
    event is the finished subtree. *)
Fixpoint events (e : Element) : list (event * Element) :=
  match e with
  | mkElement _ _ _ cs => (start, e) :: flat_map events cs ++ [(end_, e)]
  end.

End ET.

(** ** Records handed to the consumer *)

Module WikiNamespace.
Record t : Type := mk { ns : string; key : option string }.
End WikiNamespace.

Module WikiPage.
Record t : Type := mk {
  title : option string;
  text : option string;
  model : option string;
  ns : WikiNamespace.t;
  redirect : option string;
}.
End WikiPage.

(** ** The parser *)

(** The fields of a [DumpParser] instance that the iteration reads or
    writes: the two registry dictionaries.  [mediawiki_xmlns] and [xmlns]
    are assigned once by [__init__] and never written again, so they are
    constants here; the remaining slots belong to the unused regex
    scanner. *)
Record DumpParser : Type := mkDumpParser {
  key2ns : gmap string string;
  ns2key : gmap string string;
}.

Definition mediawiki_xmlns : string :=
  "{http://www.mediawiki.org/xml/export-0.10/}".

Definition xmlns : gmap string string :=
  {[ "" := "http://www.mediawiki.org/xml/export-0.10/" ]}.

(** The instance [DumpParser(dump_path)] builds: [__init__] leaves both
    dictionaries empty. *)
Definition new : DumpParser := {| key2ns := ∅; ns2key := ∅ |}.

(** Handlers run against the parser instance and may raise. *)
Definition M (A : Type) : Type := DumpParser → result (A * DumpParser).

Definition ret {A : Type} (a : A) : M A := λ self, Ok (a, self).

Definition bind {A B : Type} (c : M A) (k : A → M B) : M B :=
  λ self,
    match c self with
    | Ok (a, self') => k a self'
    | Raise e => Raise e
    end.

Definition lift {A : Type} (r : result A) : M A :=
  λ self, match r with Ok a => Ok (a, self) | Raise e => Raise e end.

Definition get_key2ns : M (gmap string string) := λ self, Ok (key2ns self, self).

Definition set_key2ns (k v : string) : M unit :=
  λ self, Ok (tt, {| key2ns := <[k := v]> (key2ns self); ns2key := ns2key self |}).

Definition set_ns2key (k v : string) : M unit :=
  λ self, Ok (tt, {| key2ns := key2ns self; ns2key := <[k := v]> (ns2key self) |}).

Notation "x <- c ;; k" := (bind c (λ x, k))
  (at level 100, c at next level, right associativity).
Notation "c1 ;;; c2" := (bind c1 (λ _, c2))
  (at level 100, right associativity).

Definition add_namespace (elem : ET.Element) : M (option WikiPage.t) :=
  let ns := py_or (ET.text elem) "" in
  key <- lift (getitem (ET.attrib elem) (Some "key")) ;;
  set_key2ns key ns ;;;
  set_ns2key ns key ;;;
  ret None.

Definition make_wikipage (elem : ET.Element) : M (option WikiPage.t) :=
  let title := ET.findtext xmlns ["title"] elem in
  let text := ET.findtext xmlns ["revision"; "text"] elem in
  let key := ET.findtext xmlns ["ns"] elem in
  k2n <- get_key2ns ;;
  ns <- lift (getitem k2n key) ;;
  let model := ET.findtext xmlns ["revision"; "model"] elem in
  let redirect_elem := ET.find xmlns ["redirect"] elem in
  redirect_model <-
    match redirect_elem with
    | Some r =>
        redirect <- lift (getitem (ET.attrib r) (Some "title")) ;;
        ret (Some redirect, Some "redirect")
    | None => ret (None, model)
    end ;;
  let ns_obj := WikiNamespace.mk ns key in
  let page := WikiPage.mk title text redirect_model.2 ns_obj redirect_model.1 in
  ret (Some page).

Definition tag2fn (t : string) : option (ET.Element → M (option WikiPage.t)) :=
  if decide (t = mediawiki_xmlns +:+ "namespace") then Some add_namespace
  else if decide (t = mediawiki_xmlns +:+ "page") then Some make_wikipage
  else None.

(** What a consumer that exhausts the generator observes: the records it
    was handed, the parser instance afterwards, and the exception that
    ended the iteration, if any. *)
Record outcome : Type := mkOutcome {
  yielded : list WikiPage.t;
  final : DumpParser;
  raised : option exn;
}.

Definition yield (p : WikiPage.t) (o : outcome) : outcome :=
  {| yielded := p :: yielded o; final := final o; raised := raised o |}.

(** The loop of [__iter__] over the events [iterparse] delivers; [failure]
    is the exception [iterparse] raises once these events are exhausted
    ([None] for a document that parses to its end). *)
Fixpoint __iter__ (self : DumpParser) (evs : list (ET.event * ET.Element))
    (failure : option exn) : outcome :=
  match evs with
  | [] => {| yielded := []; final := self; raised := failure |}
  | (ET.start, _) :: rest => __iter__ self rest failure
  | (ET.end_, elem) :: rest =>
      match tag2fn (ET.tag elem) with
      | None => __iter__ self rest failure
      | Some fn =>
          match fn elem self with
          | Raise e => {| yielded := []; final := self; raised := Some e |}
          | Ok (None, self') => __iter__ self' rest failure
          | Ok (Some page, self') => yield page (__iter__ self' rest failure)
          end
      end
  end.

(** ** Derived views of an event stream *)

Definition is_page (elem : ET.Element) : Prop :=
  ET.tag elem = mediawiki_xmlns +:+ "page".

Definition is_namespace (elem : ET.Element) : Prop :=
  ET.tag elem = mediawiki_xmlns +:+ "namespace".

#[global] Instance is_page_dec elem : Decision (is_page elem).
Proof. unfold is_page. apply _. Defined.

#[global] Instance is_namespace_dec elem : Decision (is_namespace elem).
Proof. unfold is_namespace. apply _. Defined.

(** The elements whose end event occurs in [evs], in order of completion. *)
Fixpoint ended (evs : list (ET.event * ET.Element)) : list ET.Element :=
  match evs with
  | [] => []
  | (ET.start, _) :: rest => ended rest
  | (ET.end_, elem) :: rest => elem :: ended rest
  end.

Definition pages (evs : list (ET.event * ET.Element)) : list ET.Element :=
  filter is_page (ended evs).

Definition namespaces (evs : list (ET.event * ET.Element)) : list ET.Element :=
  filter is_namespace (ended evs).

(** The [key] attributes of the namespace declarations completed in [evs]. *)
Definition declared_keys (evs : list (ET.event * ET.Element)) : list string :=
  omap (λ elem, ET.attrib elem !! "key") (namespaces evs).

(** Number of elements of a document that carry tag [t]. *)
Fixpoint count_tag (t : string) (e : ET.Element) : nat :=
  match e with
  | ET.mkElement t' _ _ cs =>
      (if decide (t' = t) then 1 else 0) + sum_list (map (count_tag t) cs)
  end.

(** The registry with one more declaration, and the outcome of an
    iteration that an exception ends. *)
Definition register (k name : string) (self : DumpParser) : DumpParser :=
  {| key2ns := <[k := name]> (key2ns self);
     ns2key := <[name := k]> (ns2key self) |}.

Definition stop (self : DumpParser) (e : exn) : outcome :=
  {| yielded := []; final := self; raised := Some e |}.

(** What one completed namespace declaration does to the registry. *)
Definition declare (self : DumpParser) (elem : ET.Element) : DumpParser :=
  match ET.attrib elem !! "key" with
  | Some k => register k (py_or (ET.text elem) "") self
  | None => self
  end.

(** A redirect child, when there is one, carries its [title] attribute. *)
Definition redirect_ok (elem : ET.Element) : bool :=
  match ET.find xmlns ["redirect"] elem with
  | Some r => bool_decide (is_Some (ET.attrib r !! "title"))
  | None => true
  end.

(** Well-formedness of a dump, following the MediaWiki export schema: every
    namespace declaration carries a key, keys are unique within one dump,
    every page names a key declared before the page is completed, and a
    redirect child carries its target.  [declared] lists the keys seen so
    far. *)
Fixpoint well_formed (declared : list string)
    (evs : list (ET.event * ET.Element)) : bool :=
  match evs with
  | [] => true
  | (ET.start, _) :: rest => well_formed declared rest
  | (ET.end_, elem) :: rest =>
      if decide (is_namespace elem) then
        match ET.attrib elem !! "key" with
        | Some k => bool_decide (k ∉ declared) && well_formed (k :: declared) rest
        | None => false
        end
      else if decide (is_page elem) then
        match ET.findtext xmlns ["ns"] elem with
        | Some k =>
            bool_decide (k ∈ declared) && redirect_ok elem
            && well_formed declared rest
        | None => false
        end
      else well_formed declared rest
  end.

(** ** Further views of a stream and of the registry *)

#[global] Instance event_eq_dec : EqDecision ET.event.
Proof. solve_decision. Defined.

(** The events the loop acts on: the end events of namespace declarations
    and of pages, the two tags [tag2fn] knows. *)
Definition relevant (ev : ET.event * ET.Element) : Prop :=
  ev.1 = ET.end_ ∧ (is_namespace ev.2 ∨ is_page ev.2).

#[global] Instance relevant_dec ev : Decision (relevant ev).
Proof. unfold relevant. apply _. Defined.

(** The key and the name a namespace declaration registers, when it has a
    key. *)
Definition declaration (elem : ET.Element) : option (string * string) :=
  match ET.attrib elem !! "key" with
  | Some k => Some (k, py_or (ET.text elem) "")
  | None => None
  end.

Definition declarations (evs : list (ET.event * ET.Element))
    : list (string * string) :=
  omap declaration (namespaces evs).

(** Each direction of the registry has an entry for whatever the other
    direction points to. *)
Definition covered (s : DumpParser) : Prop :=
  (∀ k n, key2ns s !! k = Some n → is_Some (ns2key s !! n)) ∧
  (∀ n k, ns2key s !! n = Some k → is_Some (key2ns s !! k)).

(** ** Consumers of the parser: [process_input] and [process_dump] *)

(** What ends a call of [process_input] early: an exception of the parser,
    or one of the page callback. *)
Inductive failure_of (E : Type) : Type :=
| FromParser (e : exn)
| FromCallback (e : E).
Arguments FromParser {E} e.
Arguments FromCallback {E} e.

(** [lst.append(ret)] under [if ret is not None]. *)
Definition collect {R : Type} (lst : list R) (ret : option R) : list R :=
  match ret with
  | Some r => lst ++ [r]
  | None => lst
  end.

Section Consumers.
Context {C R E : Type}.

(** [page_cb(page)]: any callable; it may change the state [C] it closes
    over, and returns a value, returns [None], or raises. *)
Variable page_cb : WikiPage.t → C → (E + option R) * C.

(** The [for page in parser] loop of [process_input].  The generator runs
    in step with the loop body: the callback sees a page before the parser
    reads the events after it.  [evs] and [failure] are what opening and
    parsing the file at [path] deliver; [lst] is the list built so far. *)
Fixpoint process_input_loop (self : DumpParser)
    (evs : list (ET.event * ET.Element)) (failure : option exn)
    (c : C) (lst : list R) : (failure_of E + list R) * C :=
  match evs with
  | [] =>
      match failure with
      | None => (inr lst, c)
      | Some e => (inl (FromParser e), c)
      end
  | (ET.start, _) :: rest => process_input_loop self rest failure c lst
  | (ET.end_, elem) :: rest =>
      match tag2fn (ET.tag elem) with
      | None => process_input_loop self rest failure c lst
      | Some fn =>
          match fn elem self with
          | Raise e => (inl (FromParser e), c)
          | Ok (None, self') => process_input_loop self' rest failure c lst
          | Ok (Some page, self') =>
              match page_cb page c with
              | (inl e, c') => (inl (FromCallback e), c')
              | (inr ret, c') =>
                  process_input_loop self' rest failure c' (collect lst ret)
              end
          end
      end
  end.

Definition process_input (evs : list (ET.event * ET.Element))
    (failure : option exn) (c : C) : (failure_of E + list R) * C :=
  process_input_loop new evs failure c [].

(** The loop body alone, over pages already at hand. *)
Fixpoint feed (pgs : list WikiPage.t) (c : C) (lst : list R)
    : (E + list R) * C :=
  match pgs with
  | [] => (inr lst, c)
  | page :: rest =>
      match page_cb page c with
      | (inl e, c') => (inl e, c')
      | (inr ret, c') => feed rest c' (collect lst ret)
      end
  end.

End Consumers.

(** A callback without state that never raises: it only computes [f]. *)
Definition pure_cb {R : Type} (f : WikiPage.t → option R)
    (page : WikiPage.t) (c : unit) : (Empty_set + option R) * unit :=
  (inr (f page), c).

Section Phase1.
Context {C E : Type}.

(** The two methods of the context object that [process_dump] calls; the
    class is not part of this file.  Each may change the context and may
    raise. *)
Variable add_page : WikiPage.t → C → option E * C.
Variable analyze_templates : C → option E * C.

(** [phase1_page_handler]: calls [ctx.add_page(page)] and returns
    [None]. *)
Definition phase1_page_handler (page : WikiPage.t) (c : C)
    : (E + option unit) * C :=
  match add_page page c with
  | (Some e, c') => (inl e, c')
  | (None, c') => (inr None, c')
  end.

(** [process_dump(ctx, path)]: the list [process_input] returns is
    dropped; the progress message is not modelled. *)
Definition process_dump (evs : list (ET.event * ET.Element))
    (failure : option exn) (c : C) : option (failure_of E) * C :=
  match process_input phase1_page_handler evs failure c with
  | (inl e, c') => (Some e, c')
  | (inr _, c') =>
      match analyze_templates c' with
      | (Some e, c'') => (Some (FromCallback e), c'')
      | (None, c'') => (None, c'')
      end
  end.

(** [ctx.add_page] on each page in turn, up to the first that raises. *)
Fixpoint add_pages (pgs : list WikiPage.t) (c : C) : option E * C :=
  match pgs with
  | [] => (None, c)
  | page :: rest =>
      match add_page page c with
      | (Some e, c') => (Some e, c')
      | (None, c') => add_pages rest c'
      end
  end.

End Phase1.

(** ** The regex-driven scanner's handlers: [handle_start] and [handle_end]

    [__iter__] still defines these two closures, although the loop that
    called them is commented out.  They work on the remaining slots of
    the parser instance. *)

Module Scanner.

(** [ignore_xml_tags] (a set) and [xml_stack_ignore] (a tuple). *)
Definition ignore_xml_tags : gset string :=
  list_to_set
    ["sha1"; "comment"; "username"; "timestamp";
     "sitename"; "dbname"; "base"; "generator"; "case";
     "restrictions"; "contributor"; "username";
     "minor"; "parentid"; "revision";
     "siteinfo"; "mediawiki"; "namespaces";
     "id"; "revision"; "format"].

Definition xml_stack_ignore : list string := ["contributor"].

Inductive error : Type :=
| IndexError
| AttributeError (slot : string)
| UnicodeDecodeError
| Lookup (e : exn).

(** The fields of the page being read.  [nskey] is the one slot that
    [__init__] leaves unset ([None] here); reading it then raises. *)
Record fields : Type := mkFields {
  title : option string;
  text : option string;
  redirect : option string;
  model : option string;
  nskey : option (option string);
}.

(** [stack] has the innermost open tag, the last element of the Python
    list, at its head; [data] lists the byte chunks in the order they were
    appended. *)
Record t : Type := mk {
  tag : option string;
  stack : list string;
  stack_ignore : bool;
  data : list string;
  args : string;
  page : fields;
  registry : DumpParser;
}.

Definition no_fields : fields := mkFields None None None None (Some None).

(** The slots as [__init__] leaves them. *)
Definition init : t :=
  mk None [] false [] "" (mkFields None None None None None) new.

(** [if self.redirect]: [None] and the empty string are falsy. *)
Definition truthy (x : option string) : bool :=
  match x with
  | None => false
  | Some s => if decide (s = "") then false else true
  end.

Definition handle_start (tg : string) (ar : string) (st : t) : t :=
  let pg :=
    if decide (tg = "page") then no_fields else page st in
  let ign :=
    if decide (tg = "page") then stack_ignore st
    else if decide (tg ∈ xml_stack_ignore) then true
    else stack_ignore st in
  mk (Some tg) (tg :: stack st) ign [] ar pg (registry st).

Section Handlers.

(** [bytes.decode] for UTF-8 and the regex-driven [parse_attrs] are taken
    as given; each gives [None] when it raises, which for both can only be
    the decoding error. *)
Variable decode : string → option string.
Variable parse_attrs : string → option (gmap string string).

Definition with_page (st : t) (pg : fields) : t :=
  mk (tag st) (stack st) (stack_ignore st) (data st) (args st) pg
     (registry st).

Definition handle_end (tg : string) (st : t)
    : (error + option WikiPage.t) * t :=
  match stack st with
  | [] => (inl IndexError, st)
  | ptag :: rest =>
      let ign :=
        if decide (ptag ∈ xml_stack_ignore) then false else stack_ignore st in
      let st1 := mk (tag st) rest ign (data st) (args st) (page st)
                    (registry st) in
      if decide (tg ∈ ignore_xml_tags) then (inr None, st1)
      else if ign then (inr None, st1)
      else
        match decode (String.concat "" (data st)) with
        | None => (inl UnicodeDecodeError, st1)
        | Some d =>
            let st2 := mk (tag st) rest ign [] (args st) (page st)
                          (registry st) in
            let pg := page st in
            if decide (tg = "title") then
              (inr None,
               with_page st2 (mkFields (Some d) (text pg) (redirect pg)
                                (model pg) (nskey pg)))
            else if decide (tg = "text") then
              (inr None,
               with_page st2 (mkFields (title pg) (Some d) (redirect pg)
                                (model pg) (nskey pg)))
            else if decide (tg = "redirect") then
              match parse_attrs (args st) with
              | None => (inl UnicodeDecodeError, st2)
              | Some attrs =>
                  (inr None,
                   with_page st2 (mkFields (title pg) (text pg)
                                    (attrs !! "title") (model pg) (nskey pg)))
              end
            else if decide (tg = "page") then
              match nskey pg with
              | None => (inl (AttributeError "nskey"), st2)
              | Some key =>
                  match getitem (key2ns (registry st)) key with
                  | Raise e => (inl (Lookup e), st2)
                  | Ok name =>
                      let ns := WikiNamespace.mk name key in
                      if truthy (redirect pg) then
                        (inr (Some (WikiPage.mk (title pg) None None ns
                                      (redirect pg))), st2)
                      else
                        (inr (Some (WikiPage.mk (title pg) (text pg)
                                      (model pg) ns None)), st2)
                  end
              end
            else if decide (tg = "model") then
              (inr None,
               with_page st2 (mkFields (title pg) (text pg) (redirect pg)
                                (Some d) (nskey pg)))
            else if decide (tg = "ns") then
              (inr None,
               with_page st2 (mkFields (title pg) (text pg) (redirect pg)
                                (model pg) (Some (Some d))))
            else if decide (tg = "namespace") then
              match parse_attrs (args st) with
              | None => (inl UnicodeDecodeError, st2)
              | Some attrs =>
                  match getitem attrs (Some "key") with
                  | Raise e => (inl (Lookup e), st2)
                  | Ok k =>
                      (inr None,
                       mk (tag st) rest ign [] (args st) (page st)
                          {| key2ns := <[k := d]> (key2ns (registry st));
                             ns2key := ns2key (registry st) |})
                  end
              end
            else
              match parse_attrs (args st) with
              | None => (inl UnicodeDecodeError, st2)
              | Some _ => (inr None, st2)
              end
        end
  end.

End Handlers.

End Scanner.

(** ** Sample documents *)

Module Fixture.

Definition el (name : string) (attrs : list (string * string))
    (x : option string) (cs : list ET.Element) : ET.Element :=
  ET.mkElement (mediawiki_xmlns +:+ name) (list_to_map attrs) x cs.

Definition siteinfo : ET.Element :=
  el "siteinfo" [] None
    [el "sitename" [] (Some "Wiktionary") [];
     el "namespaces" [] None
       [el "namespace" [("key", "0"); ("case", "case-sensitive")] None [];
        el "namespace" [("key", "1")] (Some "Talk") []]].

(** An ordinary content page. *)
Definition body_page : ET.Element :=
  el "page" [] None
    [el "title" [] (Some "dog") [];
     el "ns" [] (Some "0") [];
     el "id" [] (Some "7") [];
     el "revision" [] None
       [el "id" [] (Some "70") [];
        el "model" [] (Some "wikitext") [];
        el "text" [("bytes", "4")] (Some "BODY") []]].

(** A redirect page as dumps contain them: the revision text is the
    redirect directive. *)
Definition redirect_page : ET.Element :=
  el "page" [] None
    [el "title" [] (Some "doggo") [];
     el "ns" [] (Some "0") [];
     el "redirect" [("title", "dog")] None [];
     el "revision" [] None
       [el "model" [] (Some "wikitext") [];
        el "text" [] (Some "#REDIRECT [[dog]]") []]].

(** A page without a title child. *)
Definition untitled_page : ET.Element :=
  el "page" [] None
    [el "ns" [] (Some "1") [];
     el "revision" [] None
       [el "model" [] (Some "wikitext") [];
        el "text" [] (Some "BODY") []]].

(** A page whose revision declares the content model [redirect] and has
    no text, but which has no redirect child. *)
Definition model_redirect_page : ET.Element :=
  el "page" [] None
    [el "title" [] (Some "odd") [];
     el "ns" [] (Some "0") [];
     el "revision" [] None [el "model" [] (Some "redirect") []]].

(** A page that names a namespace key the dump never declares. *)
Definition stray_page : ET.Element :=
  el "page" [] None
    [el "title" [] (Some "stray") [];
     el "ns" [] (Some "828") [];
     el "revision" [] None [el "text" [] (Some "x") []]].

(** A namespace declaration without its key attribute. *)
Definition keyless_namespace : ET.Element :=
  el "namespace" [("case", "first-letter")] (Some "User") [].

Definition dump : ET.Element :=
  el "mediawiki" [] None [siteinfo; body_page; redirect_page].

Definition registry : DumpParser :=
  {| key2ns := {[ "0" := ""; "1" := "Talk" ]};
     ns2key := {[ "" := "0"; "Talk" := "1" ]} |}.

Definition odd_dump : ET.Element :=
  el "mediawiki" [] None [siteinfo; model_redirect_page].

(** The records the pages above are assembled into. *)

Definition body_record : WikiPage.t :=
  WikiPage.mk (Some "dog") (Some "BODY") (Some "wikitext")
    (WikiNamespace.mk "" (Some "0")) None.

Definition redirect_record : WikiPage.t :=
  WikiPage.mk (Some "doggo") (Some "#REDIRECT [[dog]]") (Some "redirect")
    (WikiNamespace.mk "" (Some "0")) (Some "dog").

Definition odd_record : WikiPage.t :=
  WikiPage.mk (Some "odd") None (Some "redirect")
    (WikiNamespace.mk "" (Some "0")) None.

End Fixture.

(** Further sample elements. *)
Module Cases.
Import Fixture.

(** A redirect element that lost its target. *)
Definition blind_redirect_page : ET.Element :=
  el "page" [] None
    [el "title" [] (Some "lost") [];
     el "ns" [] (Some "0") [];
     el "redirect" [] None [];
     el "revision" [] None [el "text" [] (Some "#REDIRECT") []]].

(** A dump whose elements carry no XML namespace. *)
Definition unqualified_dump : ET.Element :=
  ET.mkElement "mediawiki" ∅ None
    [ET.mkElement "siteinfo" ∅ None
       [ET.mkElement "namespaces" ∅ None
          [ET.mkElement "namespace" {[ "key" := "0" ]} None []]];
     ET.mkElement "page" ∅ None
       [ET.mkElement "title" ∅ (Some "dog") [];
        ET.mkElement "ns" ∅ (Some "0") []]].

(** A dump with a page that declares the model [redirect] and, after it,
    a genuine redirect page. *)
Definition mixed_dump : ET.Element :=
  el "mediawiki" [] None [siteinfo; model_redirect_page; redirect_page].

(** Key [1] declared a second time, under another name. *)
Definition renamed_namespace : ET.Element :=
  el "namespace" [("key", "1")] (Some "Discussion") [].

Definition talk_namespace : ET.Element :=
  el "namespace" [("key", "1")] (Some "Talk") [].

(** The scanner about to close a redirect page whose text was read. *)
Definition closing_redirect : Scanner.t :=
  Scanner.mk (Some "page") ["page"] false [] ""
    (Scanner.mkFields (Some "doggo") (Some "#REDIRECT [[dog]]") (Some "dog")
       (Some "wikitext") (Some (Some "0")))
    Fixture.registry.

End Cases.

(** ** Equations of the handlers *)

Lemma qname_xmlns (name : string) :
  ET.qname xmlns name = mediawiki_xmlns +:+ name.
Proof. reflexivity. Qed.

Lemma getitem_Ok {V : Type} (d : gmap string V) (k : string) (v : V) :
  d !! k = Some v → getitem d (Some k) = Ok v.
Proof. intros H. unfold getitem. by rewrite H. Qed.

Lemma getitem_Raise {V : Type} (d : gmap string V) (k : option string) :
  (∀ k', k = Some k' → d !! k' = None) →
  getitem d k = Raise (KeyError k).
Proof.
  intros H. destruct k as [k'|]; simpl; [|done].
  by rewrite (H k' eq_refl).
Qed.

Lemma getitem_inv {V : Type} (d : gmap string V) (k : option string) (v : V) :
  getitem d k = Ok v → ∃ k', k = Some k' ∧ d !! k' = Some v.
Proof.
  destruct k as [k'|]; simpl; [|done].
  destruct (d !! k') as [w|] eqn:E; [|done].
  intros [= ->]. eauto.
Qed.

Lemma add_namespace_unfold (elem : ET.Element) (self : DumpParser) :
  add_namespace elem self =
    match ET.attrib elem !! "key" with
    | None => Raise (KeyError (Some "key"))
    | Some k =>
        Ok (None,
            {| key2ns := <[k := py_or (ET.text elem) ""]> (key2ns self);
               ns2key := <[py_or (ET.text elem) "" := k]> (ns2key self) |})
    end.
Proof.
  unfold add_namespace, bind, lift, set_key2ns, set_ns2key, ret, getitem.
  by destruct (ET.attrib elem !! "key").
Qed.

Lemma make_wikipage_unfold (elem : ET.Element) (self : DumpParser) :
  make_wikipage elem self =
    let key := ET.findtext xmlns ["ns"] elem in
    let title := ET.findtext xmlns ["title"] elem in
    let text := ET.findtext xmlns ["revision"; "text"] elem in
    match getitem (key2ns self) key with
    | Raise e => Raise e
    | Ok name =>
        match ET.find xmlns ["redirect"] elem with
        | None =>
            Ok (Some (WikiPage.mk title text
                        (ET.findtext xmlns ["revision"; "model"] elem)
                        (WikiNamespace.mk name key) None), self)
        | Some r =>
            match ET.attrib r !! "title" with
            | None => Raise (KeyError (Some "title"))
            | Some x =>
                Ok (Some (WikiPage.mk title text (Some "redirect")
                            (WikiNamespace.mk name key) (Some x)), self)
            end
        end
    end.
Proof.
  unfold make_wikipage, bind, lift, get_key2ns, ret. simpl.
  destruct (getitem (key2ns self) _); [|done].
  destruct (ET.find xmlns ["redirect"] elem) as [r|]; [|done].
  unfold getitem. by destruct (ET.attrib r !! "title").
Qed.

Lemma findtext_None (ns : gmap string string) (path : list string)
    (elem : ET.Element) :
  ET.findtext ns path elem = None ↔ ET.iterfind ns path elem = [].
Proof.
  unfold ET.findtext. by destruct (ET.iterfind ns path elem).
Qed.

Lemma find_None (ns : gmap string string) (path : list string)
    (elem : ET.Element) :
  ET.find ns path elem = None ↔ ET.iterfind ns path elem = [].
Proof.
  unfold ET.find. by destruct (ET.iterfind ns path elem).
Qed.

(** A one-step path finds nothing exactly when no child carries the tag:
    [find] returning [None] is the absence of such a child. *)
Lemma iterfind_child_nil (name : string) (elem : ET.Element) :
  ET.iterfind xmlns [name] elem = [] ↔
  Forall (λ c, ET.tag c ≠ mediawiki_xmlns +:+ name) (ET.children elem).
Proof.
  simpl. rewrite qname_xmlns.
  induction (ET.children elem) as [|c cs IH]; [done|].
  rewrite filter_cons. case_decide as Hc; simpl.
  - split; [done|]. intros HF. by inversion HF.
  - rewrite IH. split; [by constructor|]. intros HF. by inversion HF.
Qed.

(** [make_wikipage] never touches the parser instance and never returns
    [None]. *)
Lemma make_wikipage_inv (elem : ET.Element) (self self' : DumpParser)
    (r : option WikiPage.t) :
  make_wikipage elem self = Ok (r, self') →
  self' = self ∧ ∃ page, r = Some page.
Proof.
  rewrite make_wikipage_unfold. simpl.
  destruct (getitem (key2ns self) _); [|done].
  destruct (ET.find xmlns ["redirect"] elem) as [r'|].
  - destruct (ET.attrib r' !! "title"); [|done]. intros [= <- <-]. eauto.
  - intros [= <- <-]. eauto.
Qed.

(** The record depends on the registry only through the one forward
    lookup, so a larger registry gives the same record. *)
Lemma make_wikipage_mono (elem : ET.Element) (s s' : DumpParser)
    (page : WikiPage.t) :
  key2ns s ⊆ key2ns s' →
  make_wikipage elem s = Ok (Some page, s) →
  make_wikipage elem s' = Ok (Some page, s').
Proof.
  intros Hsub. rewrite !make_wikipage_unfold. simpl.
  destruct (getitem (key2ns s) _) as [name|] eqn:E; [|done].
  apply getitem_inv in E as (k & Hk & Hl).
  rewrite Hk. erewrite getitem_Ok; [|by eapply lookup_weaken].
  destruct (ET.find xmlns ["redirect"] elem) as [r|].
  - destruct (ET.attrib r !! "title"); [|done]. by intros [= <-].
  - by intros [= <-].
Qed.

(** ** Equations of the loop *)

Lemma page_tag_ne_namespace_tag (elem : ET.Element) :
  is_page elem → ¬ is_namespace elem.
Proof. unfold is_page, is_namespace. intros -> [=]. Qed.

Lemma iter_end (self : DumpParser) (elem : ET.Element)
    (rest : list (ET.event * ET.Element)) (failure : option exn) :
  __iter__ self ((ET.end_, elem) :: rest) failure =
    if decide (is_namespace elem) then
      match ET.attrib elem !! "key" with
      | None => stop self (KeyError (Some "key"))
      | Some k => __iter__ (register k (py_or (ET.text elem) "") self) rest failure
      end
    else if decide (is_page elem) then
      match make_wikipage elem self with
      | Raise e => stop self e
      | Ok (Some page, _) => yield page (__iter__ self rest failure)
      | Ok (None, _) => __iter__ self rest failure
      end
    else __iter__ self rest failure.
Proof.
  simpl. unfold tag2fn, is_namespace, is_page.
  repeat case_decide; try done.
  - rewrite add_namespace_unfold. by destruct (ET.attrib elem !! "key").
  - destruct (make_wikipage elem self) as [[r s']|e] eqn:E; [|done].
    apply make_wikipage_inv in E as [-> [page ->]]. done.
Qed.

Lemma iter_nil (self : DumpParser) (failure : option exn) :
  __iter__ self [] failure = {| yielded := []; final := self; raised := failure |}.
Proof. reflexivity. Qed.

Lemma iter_start (self : DumpParser) (elem : ET.Element)
    (rest : list (ET.event * ET.Element)) (failure : option exn) :
  __iter__ self ((ET.start, elem) :: rest) failure = __iter__ self rest failure.
Proof. reflexivity. Qed.

#[global] Opaque __iter__.

(** The loop over a concatenation, when the first part raises nothing. *)
Lemma iter_app (pre post : list (ET.event * ET.Element)) (self : DumpParser)
    (failure : option exn) :
  raised (__iter__ self pre None) = None →
  __iter__ self (pre ++ post) failure =
    let o1 := __iter__ self pre None in
    let o2 := __iter__ (final o1) post failure in
    {| yielded := yielded o1 ++ yielded o2;
       final := final o2; raised := raised o2 |}.
Proof.
  revert self. induction pre as [|[[] elem] pre IH]; intros self; simpl.
  - rewrite iter_nil. simpl. by destruct (__iter__ self post failure).
  - rewrite !iter_start. apply IH.
  - rewrite !iter_end. case_decide.
    + destruct (ET.attrib elem !! "key"); [apply IH|done].
    + case_decide; [|apply IH].
      destruct (make_wikipage elem self) as [[[page|] s']|e]; [| |done].
      * simpl. intros H1. by rewrite IH.
      * apply IH.
Qed.

(** Every record handed to the consumer was built by [make_wikipage] from
    a page element whose end event is in the stream. *)
Lemma iter_yielded_inv (self : DumpParser) (evs : list (ET.event * ET.Element))
    (failure : option exn) (page : WikiPage.t) :
  page ∈ yielded (__iter__ self evs failure) →
  ∃ elem s, elem ∈ pages evs ∧ make_wikipage elem s = Ok (Some page, s).
Proof.
  revert self. induction evs as [|[[] elem] evs IH]; intros self.
  - rewrite iter_nil. simpl. by intros ?%elem_of_nil.
  - rewrite iter_start. apply IH.
  - rewrite iter_end. unfold pages. simpl. rewrite filter_cons.
    case_decide as Hn.
    + rewrite decide_False by (intros ?; by eapply page_tag_ne_namespace_tag).
      destruct (ET.attrib elem !! "key"); [apply IH|]. by intros ?%elem_of_nil.
    + case_decide as Hp; [|apply IH].
      destruct (make_wikipage elem self) as [[[p|] s']|e] eqn:E.
      * pose proof (make_wikipage_inv _ _ _ _ E) as [-> _].
        simpl. intros [->|Hin]%elem_of_cons.
        -- exists elem, self. split; [by left|done].
        -- destruct (IH _ Hin) as (elem' & s & Hin' & Hs).
           exists elem', s. split; [by right|done].
      * intros Hin. destruct (IH _ Hin) as (elem' & s & Hin' & Hs).
        exists elem', s. split; [by right|done].
      * by intros ?%elem_of_nil.
Qed.

(** ** The registry after a run *)

Lemma namespaces_cons_end (elem : ET.Element)
    (evs : list (ET.event * ET.Element)) :
  namespaces ((ET.end_, elem) :: evs) =
    if decide (is_namespace elem) then elem :: namespaces evs
    else namespaces evs.
Proof. unfold namespaces. simpl. rewrite filter_cons. by case_decide. Qed.

Lemma pages_cons_end (elem : ET.Element)
    (evs : list (ET.event * ET.Element)) :
  pages ((ET.end_, elem) :: evs) =
    if decide (is_page elem) then elem :: pages evs else pages evs.
Proof. unfold pages. simpl. rewrite filter_cons. by case_decide. Qed.

(** A run that raises nothing leaves the registry that the namespace
    declarations of the stream build, whatever the pages in between. *)
Lemma iter_final_declared (self : DumpParser)
    (evs : list (ET.event * ET.Element)) :
  raised (__iter__ self evs None) = None →
  final (__iter__ self evs None) = foldl declare self (namespaces evs).
Proof.
  revert self. induction evs as [|[[] elem] evs IH]; intros self.
  - by rewrite iter_nil.
  - rewrite iter_start. apply IH.
  - rewrite iter_end, namespaces_cons_end. case_decide as Hn.
    + simpl. unfold declare at 2.
      destruct (ET.attrib elem !! "key"); [apply IH|done].
    + case_decide; [|apply IH].
      destruct (make_wikipage elem self) as [[[page|] s']|e]; [| |done];
        apply IH.
Qed.

Lemma declare_lookup (l : list ET.Element) (self : DumpParser) (k : string) :
  is_Some (key2ns (foldl declare self l) !! k) ↔
  is_Some (key2ns self !! k) ∨ k ∈ omap (λ e, ET.attrib e !! "key") l.
Proof.
  revert self. induction l as [|e l IH]; intros self; simpl.
  - rewrite elem_of_nil. tauto.
  - rewrite IH. unfold declare.
    destruct (ET.attrib e !! "key") as [k'|]; simpl; [|done].
    rewrite elem_of_cons, lookup_insert. case_decide; subst.
    + split; [auto|]. intros _. left. eauto.
    + split; [intros [?|?]; auto|]. intros [?|[?|?]]; auto. congruence.
Qed.

Lemma py_or_Some (s : string) : py_or (Some s) "" = s.
Proof. unfold py_or. by case_decide. Qed.

(** ** Namespace declarations *)

(** C7.  A completed namespace declaration with a [key] attribute [k] and
    text content [name] (possibly the empty string) makes [add_namespace]
    succeed, and afterwards the registry maps [k] to [name] and [name]
    back to [k]. *)
Theorem add_namespace_inserts_both (elem : ET.Element) (self : DumpParser)
    (k name : string) :
  ET.attrib elem !! "key" = Some k →
  ET.text elem = Some name →
  ∃ self',
    add_namespace elem self = Ok (None, self') ∧
    key2ns self' !! k = Some name ∧
    ns2key self' !! name = Some k.
Proof.
  intros Hk Ht. rewrite add_namespace_unfold, Hk, Ht, py_or_Some.
  eexists. split; [done|]. simpl. by rewrite !lookup_insert_eq.
Qed.

Lemma add_namespace_inserts_both_witness :
  ∃ self',
    add_namespace (Fixture.el "namespace" [("key", "1")] (Some "Talk") []) new
      = Ok (None, self') ∧
    key2ns self' !! "1" = Some "Talk" ∧
    ns2key self' !! "Talk" = Some "1".
Proof.
  apply (add_namespace_inserts_both
           (Fixture.el "namespace" [("key", "1")] (Some "Talk") []) new
           "1" "Talk"); reflexivity.
Defined.

(** C8.  When the end event of a namespace declaration without a [key]
    attribute is reached, the iteration ends there with the [KeyError] of
    the attribute subscript: the records yielded are those of the events
    before it, and the registry is the one those events left, with no
    entry added for the declaration. *)
Theorem keyless_namespace_raises (self : DumpParser)
    (pre post : list (ET.event * ET.Element)) (elem : ET.Element)
    (failure : option exn) :
  raised (__iter__ self pre None) = None →
  is_namespace elem →
  ET.attrib elem !! "key" = None →
  __iter__ self (pre ++ (ET.end_, elem) :: post) failure =
    {| yielded := yielded (__iter__ self pre None);
       final := final (__iter__ self pre None);
       raised := Some (KeyError (Some "key")) |}.
Proof.
  intros Hpre Hn Hk. rewrite iter_app by done. simpl.
  rewrite iter_end, decide_True, Hk by done. simpl.
  by rewrite app_nil_r.
Qed.

Lemma keyless_namespace_raises_witness :
  __iter__ new (ET.events Fixture.siteinfo
            ++ (ET.end_, Fixture.keyless_namespace)
               :: ET.events Fixture.body_page) None =
    {| yielded := yielded (__iter__ new (ET.events Fixture.siteinfo) None);
       final := final (__iter__ new (ET.events Fixture.siteinfo) None);
       raised := Some (KeyError (Some "key")) |}.
Proof.
  apply (keyless_namespace_raises new (ET.events Fixture.siteinfo)
           (ET.events Fixture.body_page) Fixture.keyless_namespace None);
    reflexivity.
Defined.

(** C9.  A namespace declaration without text content (a self-closing tag)
    registers the empty string as its name, in both directions; a page
    that then resolves this key gets the empty string as the name of its
    namespace. *)
Theorem add_namespace_absent_text (elem : ET.Element) (self : DumpParser)
    (k : string) :
  ET.attrib elem !! "key" = Some k →
  ET.text elem = None →
  ∃ self',
    add_namespace elem self = Ok (None, self') ∧
    key2ns self' !! k = Some "" ∧
    ns2key self' !! "" = Some k ∧
    ∀ pg page s,
      ET.findtext xmlns ["ns"] pg = Some k →
      make_wikipage pg self' = Ok (Some page, s) →
      WikiNamespace.ns (WikiPage.ns page) = "".
Proof.
  intros Hk Ht. rewrite add_namespace_unfold, Hk, Ht. simpl.
  eexists. split; [done|]. simpl. rewrite !lookup_insert_eq.
  split; [done|]. split; [done|].
  intros pg page s Hns. rewrite make_wikipage_unfold. simpl.
  rewrite Hns. simpl. rewrite lookup_insert_eq.
  destruct (ET.find xmlns ["redirect"] pg) as [r|].
  - destruct (ET.attrib r !! "title"); [|done]. by intros [= <- _].
  - by intros [= <- _].
Qed.

Lemma add_namespace_absent_text_witness :
  ∃ self',
    add_namespace (Fixture.el "namespace" [("key", "0")] None []) new
      = Ok (None, self') ∧
    key2ns self' !! "0" = Some "" ∧
    ns2key self' !! "" = Some "0" ∧
    WikiNamespace.ns (WikiPage.ns Fixture.body_record) = "".
Proof.
  destruct (add_namespace_absent_text
              (Fixture.el "namespace" [("key", "0")] None []) new "0"
              eq_refl eq_refl) as (self' & Hadd & Hfwd & Hrev & Hpages).
  exists self'. split; [exact Hadd|]. split; [exact Hfwd|].
  split; [exact Hrev|].
  apply (Hpages Fixture.body_page Fixture.body_record self' eq_refl).
  injection Hadd as <-. reflexivity.
Defined.

(** ** Pages *)

(** C3.  When the end event of a page is reached whose [ns] text is not the
    key of any namespace declaration completed before it (or which has no
    [ns] child at all), the iteration of a fresh parser ends there with the
    [KeyError] of the registry subscript: nothing is yielded for the page,
    and no later event is processed. *)
Theorem unknown_namespace_key_raises
    (pre post : list (ET.event * ET.Element)) (elem : ET.Element)
    (failure : option exn) :
  raised (__iter__ new pre None) = None →
  is_page elem →
  (∀ k, ET.findtext xmlns ["ns"] elem = Some k → k ∉ declared_keys pre) →
  __iter__ new (pre ++ (ET.end_, elem) :: post) failure =
    {| yielded := yielded (__iter__ new pre None);
       final := final (__iter__ new pre None);
       raised := Some (KeyError (ET.findtext xmlns ["ns"] elem)) |}.
Proof.
  intros Hpre Hp Hk. rewrite iter_app by done. simpl.
  rewrite iter_end, decide_False, decide_True
    by (done || by apply page_tag_ne_namespace_tag).
  rewrite make_wikipage_unfold. simpl.
  rewrite getitem_Raise; [simpl; by rewrite app_nil_r|].
  intros k Hfind. apply eq_None_not_Some.
  rewrite iter_final_declared by done.
  rewrite declare_lookup. intros [[? [=]]|Hin].
  by apply (Hk k Hfind).
Qed.

Lemma unknown_namespace_key_raises_witness :
  __iter__ new (ET.events Fixture.siteinfo
            ++ (ET.end_, Fixture.stray_page)
               :: ET.events Fixture.body_page) None =
    {| yielded := yielded (__iter__ new (ET.events Fixture.siteinfo) None);
       final := final (__iter__ new (ET.events Fixture.siteinfo) None);
       raised :=
         Some (KeyError (ET.findtext xmlns ["ns"] Fixture.stray_page)) |}.
Proof.
  apply (unknown_namespace_key_raises (ET.events Fixture.siteinfo)
           (ET.events Fixture.body_page) Fixture.stray_page None).
  - reflexivity.
  - reflexivity.
  - intros k Hk. vm_compute in Hk. injection Hk as <-.
    apply (bool_decide_unpack _). vm_compute. exact I.
Defined.

(** The record [make_wikipage] builds, read off its result. *)
Lemma make_wikipage_fields (elem : ET.Element) (self self' : DumpParser)
    (page : WikiPage.t) :
  make_wikipage elem self = Ok (Some page, self') →
  WikiPage.title page = ET.findtext xmlns ["title"] elem ∧
  WikiPage.text page = ET.findtext xmlns ["revision"; "text"] elem ∧
  WikiNamespace.key (WikiPage.ns page) = ET.findtext xmlns ["ns"] elem ∧
  match ET.find xmlns ["redirect"] elem with
  | Some r =>
      WikiPage.redirect page = ET.attrib r !! "title" ∧
      is_Some (WikiPage.redirect page) ∧
      WikiPage.model page = Some "redirect"
  | None =>
      WikiPage.redirect page = None ∧
      WikiPage.model page = ET.findtext xmlns ["revision"; "model"] elem
  end.
Proof.
  rewrite make_wikipage_unfold. simpl.
  destruct (getitem (key2ns self) _); [|done].
  destruct (ET.find xmlns ["redirect"] elem) as [r|].
  - destruct (ET.attrib r !! "title"); [|done]. intros [= <- _]. simpl. eauto 6.
  - intros [= <- _]. done.
Qed.

(** C1, as stated, fails: the redirect page of the sample dump is assembled
    with its revision text kept. *)
Lemma redirect_page_keeps_text :
  ¬ (∀ (elem r : ET.Element) (x : string) (self self' : DumpParser)
       (page : WikiPage.t),
       is_page elem →
       ET.find xmlns ["redirect"] elem = Some r →
       ET.attrib r !! "title" = Some x →
       make_wikipage elem self = Ok (Some page, self') →
       WikiPage.redirect page = Some x ∧
       WikiPage.text page = None ∧
       WikiPage.model page = Some "redirect").
Proof.
  intros H.
  destruct (H Fixture.redirect_page
              (Fixture.el "redirect" [("title", "dog")] None []) "dog"
              Fixture.registry Fixture.registry
              (WikiPage.mk (Some "doggo") (Some "#REDIRECT [[dog]]")
                 (Some "redirect") (WikiNamespace.mk "" (Some "0"))
                 (Some "dog")))
    as (_ & Ht & _); [reflexivity..|].
  discriminate Ht.
Qed.

(** C1, amended.  For a page element whose first [redirect] child carries
    the [title] attribute [x], every record [make_wikipage] builds has
    [redirect] equal to [x], [model] equal to the sentinel [redirect], and
    [text] equal to the page's revision text; and such a record is built
    whenever the page's namespace key is registered. *)
Theorem make_wikipage_redirect (elem r : ET.Element) (x : string)
    (self : DumpParser) :
  ET.find xmlns ["redirect"] elem = Some r →
  ET.attrib r !! "title" = Some x →
  (∀ page self',
     make_wikipage elem self = Ok (Some page, self') →
     WikiPage.redirect page = Some x ∧
     WikiPage.model page = Some "redirect" ∧
     WikiPage.text page = ET.findtext xmlns ["revision"; "text"] elem) ∧
  (∀ k name,
     ET.findtext xmlns ["ns"] elem = Some k →
     key2ns self !! k = Some name →
     ∃ page, make_wikipage elem self = Ok (Some page, self)).
Proof.
  intros Hr Hx. split.
  - intros page self' Hmk.
    apply make_wikipage_fields in Hmk as (_ & Ht & _ & Hred).
    rewrite Hr, Hx in Hred. by destruct Hred as (? & _ & ?).
  - intros k name Hk Hname. rewrite make_wikipage_unfold. simpl.
    rewrite Hk, (getitem_Ok _ _ _ Hname), Hr, Hx. eauto.
Qed.

Lemma make_wikipage_redirect_witness :
  ∃ page,
    make_wikipage Fixture.redirect_page Fixture.registry
      = Ok (Some page, Fixture.registry) ∧
    WikiPage.redirect page = Some "dog" ∧
    WikiPage.model page = Some "redirect" ∧
    WikiPage.text page = Some "#REDIRECT [[dog]]".
Proof.
  destruct (make_wikipage_redirect Fixture.redirect_page
              (Fixture.el "redirect" [("title", "dog")] None []) "dog"
              Fixture.registry eq_refl eq_refl) as [Hfields Hbuilt].
  destruct (Hbuilt "0" "" eq_refl eq_refl) as [page Hpage].
  exists page. split; [exact Hpage|].
  exact (Hfields page Fixture.registry Hpage).
Defined.

(** C4.  For a page element without a [redirect] child, every record
    [make_wikipage] builds has [text] equal to the text of the first
    [revision/text] element ([None] exactly when there is no such
    element), [model] equal to the text of the first [revision/model]
    element, and no [redirect]; and such a record is built whenever the
    page's namespace key is registered. *)
Theorem make_wikipage_plain (elem : ET.Element) (self : DumpParser) :
  Forall (λ c, ET.tag c ≠ mediawiki_xmlns +:+ "redirect") (ET.children elem) →
  (∀ page self',
     make_wikipage elem self = Ok (Some page, self') →
     WikiPage.text page = ET.findtext xmlns ["revision"; "text"] elem ∧
     (WikiPage.text page = None ↔
      ET.iterfind xmlns ["revision"; "text"] elem = []) ∧
     WikiPage.model page = ET.findtext xmlns ["revision"; "model"] elem ∧
     WikiPage.redirect page = None) ∧
  (∀ k name,
     ET.findtext xmlns ["ns"] elem = Some k →
     key2ns self !! k = Some name →
     ∃ page, make_wikipage elem self = Ok (Some page, self)).
Proof.
  intros Hr. apply iterfind_child_nil, find_None in Hr. split.
  - intros page self' Hmk.
    apply make_wikipage_fields in Hmk as (_ & Ht & _ & Hred).
    rewrite Hr in Hred. destruct Hred as [Hnone Hmodel].
    rewrite Ht. split; [done|]. split; [apply findtext_None|done].
  - intros k name Hk Hname. rewrite make_wikipage_unfold. simpl.
    rewrite Hk, (getitem_Ok _ _ _ Hname), Hr. eauto.
Qed.

Lemma make_wikipage_plain_witness :
  ∃ page,
    make_wikipage Fixture.body_page Fixture.registry
      = Ok (Some page, Fixture.registry) ∧
    WikiPage.text page = Some "BODY" ∧
    WikiPage.model page = Some "wikitext" ∧
    WikiPage.redirect page = None.
Proof.
  destruct (make_wikipage_plain Fixture.body_page Fixture.registry)
    as [Hfields Hbuilt].
  { repeat constructor; discriminate. }
  destruct (Hbuilt "0" "" eq_refl eq_refl) as [page Hpage].
  exists page. split; [exact Hpage|].
  destruct (Hfields page Fixture.registry Hpage) as (Ht & _ & Hm & Hr).
  split; [exact Ht|]. split; [exact Hm|exact Hr].
Defined.

(** The scenario of the specification: revision text [BODY], declared
    model [wikitext], no redirect child. *)
Example body_page_record :
  make_wikipage Fixture.body_page Fixture.registry =
    Ok (Some (WikiPage.mk (Some "dog") (Some "BODY") (Some "wikitext")
                (WikiNamespace.mk "" (Some "0")) None),
        Fixture.registry).
Proof. reflexivity. Qed.

(** C2, as stated, fails: a page without a title child is assembled into a
    record; nothing is raised. *)
Lemma untitled_page_is_assembled :
  ¬ (∀ (elem : ET.Element) (self : DumpParser),
       is_page elem →
       ET.findtext xmlns ["title"] elem = None ∨
       ET.findtext xmlns ["title"] elem = Some "" →
       ∃ e, make_wikipage elem self = Raise e).
Proof.
  intros H.
  destruct (H Fixture.untitled_page Fixture.registry) as [e He];
    [reflexivity|by left|].
  discriminate He.
Qed.

(** C2, amended.  A page element whose title child is absent or has empty
    text raises no error of its own: when its namespace key is registered
    and its redirect child, if any, carries a target, the iteration yields
    its record, whose title is then absent or the empty string. *)
Theorem untitled_page_is_yielded (elem : ET.Element) (self : DumpParser)
    (k name : string) (failure : option exn) :
  is_page elem →
  ET.findtext xmlns ["title"] elem = None ∨
  ET.findtext xmlns ["title"] elem = Some "" →
  ET.findtext xmlns ["ns"] elem = Some k →
  key2ns self !! k = Some name →
  redirect_ok elem = true →
  ∃ page,
    __iter__ self [(ET.end_, elem)] failure =
      {| yielded := [page]; final := self; raised := failure |} ∧
    WikiPage.title page = ET.findtext xmlns ["title"] elem ∧
    (WikiPage.title page = None ∨ WikiPage.title page = Some "").
Proof.
  intros Hp Ht Hk Hname Hred.
  rewrite iter_end, decide_False, decide_True
    by (done || by apply page_tag_ne_namespace_tag).
  rewrite iter_nil, make_wikipage_unfold. simpl.
  rewrite Hk, (getitem_Ok _ _ _ Hname).
  unfold redirect_ok in Hred.
  destruct (ET.find xmlns ["redirect"] elem) as [r|].
  - apply bool_decide_eq_true in Hred as [x Hx]. rewrite Hx.
    eexists. split; [done|]. simpl. done.
  - eexists. split; [done|]. simpl. done.
Qed.

Lemma untitled_page_is_yielded_witness :
  ∃ page,
    __iter__ Fixture.registry [(ET.end_, Fixture.untitled_page)] None =
      {| yielded := [page]; final := Fixture.registry; raised := None |} ∧
    WikiPage.title page = ET.findtext xmlns ["title"] Fixture.untitled_page ∧
    (WikiPage.title page = None ∨ WikiPage.title page = Some "").
Proof.
  apply (untitled_page_is_yielded Fixture.untitled_page Fixture.registry
           "1" "Talk" None); (reflexivity || by left).
Defined.

(** ** Invariants of yielded records *)

Example dump_yields :
  yielded (__iter__ new (ET.events Fixture.dump) None) =
    [Fixture.body_record; Fixture.redirect_record].
Proof. vm_compute. reflexivity. Qed.

Example odd_dump_yields :
  yielded (__iter__ new (ET.events Fixture.odd_dump) None) = [Fixture.odd_record].
Proof. vm_compute. reflexivity. Qed.

(** C5, as stated, fails in both directions: the sample dump yields a
    redirect record that has text, and a page whose revision declares the
    model [redirect] without text yields a record with no redirect. *)
Lemma redirect_iff_fails :
  ¬ (∀ (self : DumpParser) (evs : list (ET.event * ET.Element))
       (failure : option exn) (page : WikiPage.t),
       page ∈ yielded (__iter__ self evs failure) →
       is_Some (WikiPage.redirect page) →
       WikiPage.text page = None ∧ WikiPage.model page = Some "redirect") ∧
  ¬ (∀ (self : DumpParser) (evs : list (ET.event * ET.Element))
       (failure : option exn) (page : WikiPage.t),
       page ∈ yielded (__iter__ self evs failure) →
       WikiPage.text page = None ∧ WikiPage.model page = Some "redirect" →
       is_Some (WikiPage.redirect page)).
Proof.
  split; intros H.
  - destruct (H new (ET.events Fixture.dump) None Fixture.redirect_record)
      as [Ht _].
    + rewrite dump_yields. apply list_elem_of_further, list_elem_of_here.
    + by eexists.
    + discriminate Ht.
  - destruct (H new (ET.events Fixture.odd_dump) None Fixture.odd_record)
      as [x Hx].
    + rewrite odd_dump_yields. apply list_elem_of_here.
    + done.
    + discriminate Hx.
Qed.

(** C5, amended.  In every yielded record a set [redirect] comes with the
    sentinel model [redirect]; and the record was assembled from a page
    element of the stream such that, unless that page itself declares the
    content model [redirect] in its revision, the sentinel model comes
    only with a set [redirect]. *)
Theorem redirect_model_sentinel (self : DumpParser)
    (evs : list (ET.event * ET.Element)) (failure : option exn)
    (page : WikiPage.t) :
  page ∈ yielded (__iter__ self evs failure) →
  (is_Some (WikiPage.redirect page) → WikiPage.model page = Some "redirect") ∧
  ∃ elem s,
    elem ∈ pages evs ∧
    make_wikipage elem s = Ok (Some page, s) ∧
    (ET.findtext xmlns ["revision"; "model"] elem ≠ Some "redirect" →
     WikiPage.model page = Some "redirect" →
     is_Some (WikiPage.redirect page)).
Proof.
  intros Hin.
  apply iter_yielded_inv in Hin as (elem & s & Hel & Hmk).
  pose proof (make_wikipage_fields _ _ _ _ Hmk) as (_ & _ & _ & Hred).
  destruct (ET.find xmlns ["redirect"] elem) as [r|].
  - destruct Hred as (_ & Hsome & Hmodel). split; [done|].
    exists elem, s. done.
  - destruct Hred as [Hnone Hmodel]. split.
    + rewrite Hnone. by intros [? [=]].
    + exists elem, s. split; [done|]. split; [done|].
      intros Hdecl Hsent. congruence.
Qed.

(** The stream of the witness holds both a page that declares the model
    [redirect] and a genuine redirect page; the statement still decides
    the record of the latter. *)
Lemma redirect_model_sentinel_witness :
  WikiPage.model Fixture.redirect_record = Some "redirect" ∧
  is_Some (WikiPage.redirect Fixture.redirect_record).
Proof.
  destruct (redirect_model_sentinel new (ET.events Cases.mixed_dump) None
              Fixture.redirect_record) as [Hfwd (elem & s & Hel & Hmk & Hback)].
  - apply list_elem_of_In. vm_compute. right. left. reflexivity.
  - split; [apply Hfwd; by eexists|].
    apply Hback; [|reflexivity].
    pose proof (make_wikipage_fields _ _ _ _ Hmk) as (Ht & _).
    assert (pages (ET.events Cases.mixed_dump)
            = [Fixture.model_redirect_page; Fixture.redirect_page]) as Hpages
      by (vm_compute; reflexivity).
    rewrite Hpages in Hel.
    apply elem_of_cons in Hel as [->|Hel]; [discriminate Ht|].
    apply list_elem_of_singleton in Hel as ->. discriminate.
Defined.

(** ** Whole dumps *)

Lemma ended_app (evs1 evs2 : list (ET.event * ET.Element)) :
  ended (evs1 ++ evs2) = ended evs1 ++ ended evs2.
Proof.
  induction evs1 as [|[[] elem] evs1 IH]; simpl; [done|done|].
  by rewrite IH.
Qed.

(** The end events of a document are one per element. *)
Lemma count_tag_ended (t : string) (doc : ET.Element) :
  length (filter (λ e, ET.tag e = t) (ended (ET.events doc))) = count_tag t doc.
Proof.
  induction doc as [t' a x cs IH] using ET.Element_ind.
  cbn [ET.events count_tag ended].
  rewrite ended_app, filter_app, length_app. cbn [ended].
  rewrite filter_cons, filter_nil. cbn [ET.tag].
  assert (length (filter (λ e, ET.tag e = t) (ended (flat_map ET.events cs)))
          = sum_list (map (count_tag t) cs)) as ->.
  { induction IH as [|c cs' Hc _ IHcs]; [done|].
    cbn [flat_map map sum_list sum_list_with].
    rewrite ended_app, filter_app, length_app, Hc, IHcs. done. }
  case_decide; simpl; lia.
Qed.

Lemma make_wikipage_Ok (elem : ET.Element) (self : DumpParser)
    (k name : string) :
  ET.findtext xmlns ["ns"] elem = Some k →
  key2ns self !! k = Some name →
  redirect_ok elem = true →
  ∃ page, make_wikipage elem self = Ok (Some page, self).
Proof.
  intros Hk Hname Hred. rewrite make_wikipage_unfold. simpl.
  rewrite Hk, (getitem_Ok _ _ _ Hname). unfold redirect_ok in Hred.
  destruct (ET.find xmlns ["redirect"] elem) as [r|]; [|eauto].
  apply bool_decide_eq_true in Hred as [x ->]. eauto.
Qed.

(** A well-formed stream, run from a registry that holds exactly the keys
    declared so far. *)
Lemma well_formed_iter (evs : list (ET.event * ET.Element))
    (declared : list string) (self : DumpParser) :
  well_formed declared evs = true →
  (∀ k, k ∈ declared ↔ is_Some (key2ns self !! k)) →
  let o := __iter__ self evs None in
  raised o = None ∧
  key2ns self ⊆ key2ns (final o) ∧
  Forall2 (λ elem page, make_wikipage elem (final o) = Ok (Some page, final o))
    (pages evs) (yielded o) ∧
  size (key2ns (final o)) = size (key2ns self) + length (namespaces evs).
Proof.
  revert declared self.
  induction evs as [|[[] elem] evs IH]; intros declared self Hwf Hdecl.
  - rewrite iter_nil. simpl. split; [done|]. split; [done|].
    split; [constructor|]. unfold namespaces. simpl. lia.
  - rewrite iter_start. by apply (IH declared).
  - simpl in Hwf. rewrite iter_end, namespaces_cons_end, pages_cons_end.
    case_decide as Hn.
    + rewrite decide_False by (intros ?; by eapply page_tag_ne_namespace_tag).
      destruct (ET.attrib elem !! "key") as [k|]; [|done].
      apply andb_true_iff in Hwf as [Hfresh Hwf].
      apply bool_decide_eq_true in Hfresh.
      assert (key2ns self !! k = None) as Hnone.
      { apply eq_None_not_Some. by rewrite <- Hdecl. }
      set (name := py_or (ET.text elem) "").
      destruct (IH (k :: declared) (register k name self) Hwf)
        as (Hr & Hsub & HF & Hsize).
      { intros k'. simpl. rewrite elem_of_cons, lookup_insert, Hdecl.
        case_decide; subst.
        - split; [eauto|]. by left.
        - split; [intros [?|?]; [congruence|done]|by right]. }
      split; [done|]. split.
      { etrans; [|exact Hsub]. simpl. by apply insert_subseteq. }
      split; [done|]. rewrite Hsize. simpl.
      rewrite map_size_insert_None by done. lia.
    + case_decide as Hp; [|by apply (IH declared)].
      destruct (ET.findtext xmlns ["ns"] elem) as [k|] eqn:Hk; [|done].
      apply andb_true_iff in Hwf as [Hwf1 Hwf].
      apply andb_true_iff in Hwf1 as [Hin Hred].
      apply bool_decide_eq_true in Hin.
      apply Hdecl in Hin as [name Hname].
      destruct (make_wikipage_Ok elem self k name Hk Hname Hred)
        as [page Hpage].
      rewrite Hpage. simpl.
      destruct (IH declared self Hwf Hdecl) as (Hr & Hsub & HF & Hsize).
      split; [done|]. split; [done|]. split; [|done].
      constructor; [|done]. by apply (make_wikipage_mono elem self).
Qed.

(** C6.  Iterating a fresh parser over a well-formed dump with P page
    elements and N namespace declarations raises nothing and yields exactly
    P records, the i-th being the record of the i-th page element to be
    completed; afterwards the registry holds exactly N keys. *)
Theorem well_formed_dump_yields_every_page (doc : ET.Element) :
  well_formed [] (ET.events doc) = true →
  let o := __iter__ new (ET.events doc) None in
  raised o = None ∧
  length (yielded o) = count_tag (mediawiki_xmlns +:+ "page") doc ∧
  Forall2 (λ elem page, make_wikipage elem (final o) = Ok (Some page, final o))
    (pages (ET.events doc)) (yielded o) ∧
  size (key2ns (final o)) = count_tag (mediawiki_xmlns +:+ "namespace") doc.
Proof.
  intros Hwf.
  destruct (well_formed_iter (ET.events doc) [] new Hwf)
    as (Hr & _ & HF & Hsize).
  { intros k. simpl. rewrite lookup_empty, elem_of_nil.
    split; [done|]. by intros [? [=]]. }
  split; [done|]. split.
  { rewrite <- (Forall2_length _ _ _ HF). apply count_tag_ended. }
  split; [done|].
  rewrite Hsize. simpl. rewrite map_size_empty. apply count_tag_ended.
Qed.

Lemma well_formed_dump_yields_every_page_witness :
  let o := __iter__ new (ET.events Fixture.dump) None in
  raised o = None ∧
  length (yielded o) = count_tag (mediawiki_xmlns +:+ "page") Fixture.dump ∧
  Forall2 (λ elem page, make_wikipage elem (final o) = Ok (Some page, final o))
    (pages (ET.events Fixture.dump)) (yielded o) ∧
  size (key2ns (final o))
    = count_tag (mediawiki_xmlns +:+ "namespace") Fixture.dump.
Proof.
  apply (well_formed_dump_yields_every_page Fixture.dump).
  vm_compute. reflexivity.
Defined.

Example dump_counts :
  count_tag (mediawiki_xmlns +:+ "page") Fixture.dump = 2 ∧
  count_tag (mediawiki_xmlns +:+ "namespace") Fixture.dump = 2.
Proof. split; reflexivity. Qed.

(** ** Determinism and independence of pages *)

Lemma DumpParser_eq (s s' : DumpParser) :
  key2ns s = key2ns s' → ns2key s = ns2key s' → s = s'.
Proof. destruct s, s'. simpl. by intros -> ->. Qed.

(** Running the loop again from a registry that already holds what the
    first run will leave (entries of the current registry taking
    precedence) reproduces the first run. *)
Lemma iter_again (evs : list (ET.event * ET.Element)) (s s' : DumpParser)
    (failure : option exn) :
  key2ns s' = key2ns s ∪ key2ns (final (__iter__ s evs failure)) →
  ns2key s' = ns2key s ∪ ns2key (final (__iter__ s evs failure)) →
  __iter__ s' evs failure = __iter__ s evs failure.
Proof.
  revert s s'. induction evs as [|[[] elem] evs IH]; intros s s'.
  - rewrite !iter_nil. simpl. rewrite !(idemp_L (∪)). intros Hk Hn.
    by rewrite (DumpParser_eq s' s).
  - rewrite !iter_start. apply IH.
  - rewrite !iter_end. case_decide as Hn.
    + destruct (ET.attrib elem !! "key") as [k|].
      * intros Hk2n Hn2k. apply IH; simpl.
        -- by rewrite Hk2n, insert_union_l.
        -- by rewrite Hn2k, insert_union_l.
      * simpl. rewrite !(idemp_L (∪)). intros Hk2n Hn2k.
        by rewrite (DumpParser_eq s' s).
    + case_decide as Hp; [|apply IH].
      destruct (make_wikipage elem s) as [[[page|] s1]|e] eqn:E.
      * pose proof (make_wikipage_inv _ _ _ _ E) as [-> _].
        simpl. intros Hk2n Hn2k.
        rewrite (make_wikipage_mono elem s s' page); [|..|done].
        -- by rewrite (IH s s').
        -- rewrite Hk2n. apply map_union_subseteq_l.
      * by apply make_wikipage_inv in E as [_ [? [=]]].
      * simpl. rewrite !(idemp_L (∪)). intros Hk2n Hn2k.
        by rewrite (DumpParser_eq s' s), E.
Qed.

(** C10.  Iterating is deterministic and pages are independent of each
    other.  (1) Iterating the same events a second time, even on the same
    parser instance with the registry the first iteration left, gives the
    same records, the same registry and the same exception.  (2) The
    outcome of a page's end event after one stream of events and after
    another is the same whenever the two streams complete the same
    namespace declarations in the same order, whatever pages they
    contain. *)
Theorem iteration_deterministic_pages_independent
    (evs pre1 pre2 : list (ET.event * ET.Element)) (elem : ET.Element)
    (self : DumpParser) (failure : option exn) :
  __iter__ (final (__iter__ new evs failure)) evs failure = __iter__ new evs failure ∧
  (namespaces pre1 = namespaces pre2 →
   raised (__iter__ self pre1 None) = None →
   raised (__iter__ self pre2 None) = None →
   ∃ o,
     __iter__ self (pre1 ++ [(ET.end_, elem)]) failure =
       {| yielded := yielded (__iter__ self pre1 None) ++ yielded o;
          final := final o; raised := raised o |} ∧
     __iter__ self (pre2 ++ [(ET.end_, elem)]) failure =
       {| yielded := yielded (__iter__ self pre2 None) ++ yielded o;
          final := final o; raised := raised o |}).
Proof.
  split.
  - apply iter_again; simpl; by rewrite (left_id_L ∅ (∪)).
  - intros Hns H1 H2.
    exists (__iter__ (final (__iter__ self pre1 None)) [(ET.end_, elem)] failure).
    split; [by rewrite iter_app|].
    rewrite iter_app by done. simpl.
    by rewrite !iter_final_declared, Hns by done.
Qed.

Lemma iteration_deterministic_pages_independent_witness :
  __iter__ (final (__iter__ new (ET.events Fixture.dump) None))
    (ET.events Fixture.dump) None
    = __iter__ new (ET.events Fixture.dump) None ∧
  ∃ o,
    __iter__ new ((ET.events Fixture.siteinfo ++ ET.events Fixture.body_page)
              ++ [(ET.end_, Fixture.redirect_page)]) None =
      {| yielded :=
           yielded (__iter__ new (ET.events Fixture.siteinfo
                              ++ ET.events Fixture.body_page) None)
           ++ yielded o;
         final := final o; raised := raised o |} ∧
    __iter__ new ((ET.events Fixture.siteinfo
               ++ ET.events Fixture.model_redirect_page)
              ++ [(ET.end_, Fixture.redirect_page)]) None =
      {| yielded :=
           yielded (__iter__ new (ET.events Fixture.siteinfo
                              ++ ET.events Fixture.model_redirect_page) None)
           ++ yielded o;
         final := final o; raised := raised o |}.
Proof.
  destruct (iteration_deterministic_pages_independent
              (ET.events Fixture.dump)
              (ET.events Fixture.siteinfo ++ ET.events Fixture.body_page)
              (ET.events Fixture.siteinfo
               ++ ET.events Fixture.model_redirect_page)
              Fixture.redirect_page new None) as [Hagain Hindep].
  split; [exact Hagain|].
  apply Hindep; vm_compute; reflexivity.
Defined.

(** ** More on the loop *)

(** X5.  A page whose redirect child has no [title] attribute ends the
    iteration with the [KeyError] of the attribute subscript, although its
    namespace key resolves; nothing is yielded for it. *)
Theorem redirect_without_title_raises (self : DumpParser)
    (pre post : list (ET.event * ET.Element)) (elem r : ET.Element)
    (k name : string) (failure : option exn) :
  raised (__iter__ self pre None) = None →
  is_page elem →
  ET.findtext xmlns ["ns"] elem = Some k →
  key2ns (final (__iter__ self pre None)) !! k = Some name →
  ET.find xmlns ["redirect"] elem = Some r →
  ET.attrib r !! "title" = None →
  __iter__ self (pre ++ (ET.end_, elem) :: post) failure =
    {| yielded := yielded (__iter__ self pre None);
       final := final (__iter__ self pre None);
       raised := Some (KeyError (Some "title")) |}.
Proof.
  intros Hpre Hp Hk Hname Hr Ht. rewrite iter_app by done. simpl.
  rewrite iter_end, decide_False, decide_True
    by (done || by apply page_tag_ne_namespace_tag).
  rewrite make_wikipage_unfold. simpl.
  rewrite Hk, (getitem_Ok _ _ _ Hname), Hr, Ht. simpl.
  by rewrite app_nil_r.
Qed.

Lemma redirect_without_title_raises_witness :
  __iter__ new (ET.events Fixture.siteinfo
                ++ (ET.end_, Cases.blind_redirect_page)
                   :: ET.events Fixture.body_page) None =
    {| yielded := yielded (__iter__ new (ET.events Fixture.siteinfo) None);
       final := final (__iter__ new (ET.events Fixture.siteinfo) None);
       raised := Some (KeyError (Some "title")) |}.
Proof.
  apply (redirect_without_title_raises new (ET.events Fixture.siteinfo)
           (ET.events Fixture.body_page) Cases.blind_redirect_page
           (Fixture.el "redirect" [] None []) "0" "" None);
    reflexivity.
Defined.

(** X3.  Only the end events of namespace declarations and pages matter:
    dropping every other event from the stream changes nothing of what the
    iteration yields, leaves behind or raises. *)
Theorem irrelevant_events_ignored (self : DumpParser)
    (evs : list (ET.event * ET.Element)) (failure : option exn) :
  __iter__ self (filter relevant evs) failure = __iter__ self evs failure.
Proof.
  revert self. induction evs as [|[[] elem] evs IH]; intros self.
  - done.
  - rewrite filter_cons, decide_False by (by intros [[=] _]).
    by rewrite iter_start.
  - rewrite filter_cons. destruct (decide (is_namespace elem)) as [Hn|Hn].
    + rewrite decide_True by (split; [done|by left]).
      rewrite !iter_end.
      rewrite !(decide_True (P := is_namespace elem)) by done.
      by destruct (ET.attrib elem !! "key").
    + destruct (decide (is_page elem)) as [Hp|Hp].
      * rewrite decide_True by (split; [done|by right]).
        rewrite !iter_end.
        rewrite !(decide_False (P := is_namespace elem)) by done.
        rewrite !(decide_True (P := is_page elem)) by done.
        destruct (make_wikipage elem self) as [[[page|] s']|e]; [|done..].
        by rewrite IH.
      * rewrite decide_False by (intros [_ [?|?]]; done).
        rewrite iter_end.
        rewrite (decide_False (P := is_namespace elem)) by done.
        by rewrite (decide_False (P := is_page elem)) by done.
Qed.

(** X1.  The records come one per page, in the order the pages are completed:
    the i-th record is assembled from the i-th page element, no page is
    yielded twice or skipped, and an iteration that raises nothing has
    yielded a record for every page. *)
Theorem one_record_per_page (self : DumpParser)
    (evs : list (ET.event * ET.Element)) (failure : option exn) :
  let o := __iter__ self evs failure in
  Forall2 (λ elem page, ∃ s, make_wikipage elem s = Ok (Some page, s))
    (take (length (yielded o)) (pages evs)) (yielded o) ∧
  (raised o = None → length (yielded o) = length (pages evs)).
Proof.
  revert self. induction evs as [|[[] elem] evs IH]; intros self.
  - rewrite iter_nil. simpl. split; [constructor|done].
  - rewrite iter_start. apply IH.
  - rewrite iter_end, pages_cons_end. case_decide as Hn.
    + rewrite decide_False by (intros ?; by eapply page_tag_ne_namespace_tag).
      destruct (ET.attrib elem !! "key"); [apply IH|].
      simpl. split; [constructor|done].
    + case_decide as Hp; [|apply IH].
      destruct (make_wikipage elem self) as [[[page|] s']|e] eqn:E.
      * pose proof (make_wikipage_inv _ _ _ _ E) as [-> _].
        destruct (IH self) as [HF Hlen]. simpl. split.
        -- constructor; [by exists self|done].
        -- intros H1. by rewrite Hlen.
      * by apply make_wikipage_inv in E as [_ [? [=]]].
      * simpl. split; [constructor|done].
Qed.

Lemma one_record_per_page_witness :
  length (yielded (__iter__ new (ET.events Fixture.dump) None)) =
    length (pages (ET.events Fixture.dump)).
Proof.
  apply (one_record_per_page new (ET.events Fixture.dump) None);
    reflexivity.
Defined.

(** X2.  Records are never retracted: what the iteration has yielded after a
    prefix of the events is a prefix of what it yields after more events. *)
Theorem yielded_prefix_monotone (self : DumpParser)
    (pre post : list (ET.event * ET.Element)) (failure : option exn) :
  yielded (__iter__ self pre None)
    `prefix_of` yielded (__iter__ self (pre ++ post) failure).
Proof.
  revert self. induction pre as [|[[] elem] pre IH]; intros self; simpl.
  - rewrite iter_nil. apply prefix_nil.
  - rewrite !iter_start. apply IH.
  - rewrite !iter_end. case_decide.
    + destruct (ET.attrib elem !! "key"); [apply IH|done].
    + case_decide; [|apply IH].
      destruct (make_wikipage elem self) as [[[page|] s']|e]; [| |done].
      * simpl. apply prefix_cons, IH.
      * apply IH.
Qed.

(** X4.  A stream in which no element carries the qualified [page] or
    [namespace] tag of the 0.10 export schema, such as a dump of another
    schema version or one without the namespace declaration, yields
    nothing, registers nothing and raises nothing of its own. *)
Theorem foreign_schema_yields_nothing (self : DumpParser)
    (evs : list (ET.event * ET.Element)) (failure : option exn) :
  Forall (λ ev, ¬ is_page ev.2 ∧ ¬ is_namespace ev.2) evs →
  __iter__ self evs failure =
    {| yielded := []; final := self; raised := failure |}.
Proof.
  induction 1 as [|[[] elem] evs [Hp Hn] _ IH]; simpl in *.
  - done.
  - by rewrite iter_start.
  - rewrite iter_end.
    rewrite (decide_False (P := is_namespace elem)) by done.
    by rewrite (decide_False (P := is_page elem)) by done.
Qed.

Lemma foreign_schema_yields_nothing_witness :
  __iter__ new (ET.events Cases.unqualified_dump) None =
    {| yielded := []; final := new; raised := None |}.
Proof.
  apply (foreign_schema_yields_nothing new
           (ET.events Cases.unqualified_dump) None).
  apply (bool_decide_unpack _). vm_compute. exact I.
Defined.

(** ** More on the registry *)

Lemma covered_register (k n : string) (s : DumpParser) :
  covered s → covered (register k n s).
Proof.
  intros [Hfwd Hrev]. split; simpl.
  - intros k' n'. rewrite lookup_insert. case_decide; subst.
    + intros [= <-]. rewrite lookup_insert_eq. eauto.
    + intros Hl. rewrite lookup_insert. case_decide; eauto.
  - intros n' k'. rewrite lookup_insert. case_decide; subst.
    + intros [= <-]. rewrite lookup_insert_eq. eauto.
    + intros Hl. rewrite lookup_insert. case_decide; eauto.
Qed.

(** X8.  The two directions of the registry stay in step through any
    iteration, also one that an exception ends: every name the forward
    dictionary gives has a reverse entry, and every key the reverse
    dictionary gives has a forward entry. *)
Theorem covered_preserved (self : DumpParser)
    (evs : list (ET.event * ET.Element)) (failure : option exn) :
  covered self → covered (final (__iter__ self evs failure)).
Proof.
  revert self. induction evs as [|[[] elem] evs IH]; intros self Hc.
  - by rewrite iter_nil.
  - rewrite iter_start. by apply IH.
  - rewrite iter_end. case_decide.
    + destruct (ET.attrib elem !! "key"); [|done].
      by apply IH, covered_register.
    + case_decide; [|by apply IH].
      destruct (make_wikipage elem self) as [[[page|] s']|e]; [| |done];
        simpl; by apply IH.
Qed.

Lemma covered_preserved_witness :
  covered (final (__iter__ new (ET.events Fixture.dump) None)).
Proof.
  apply (covered_preserved new (ET.events Fixture.dump) None).
  split; intros ? ?; simpl; rewrite lookup_empty; discriminate.
Defined.

Lemma iter_dom_key2ns (self : DumpParser)
    (evs : list (ET.event * ET.Element)) (failure : option exn) :
  dom (key2ns self) ⊆ dom (key2ns (final (__iter__ self evs failure))).
Proof.
  revert self. induction evs as [|[[] elem] evs IH]; intros self.
  - by rewrite iter_nil.
  - rewrite iter_start. apply IH.
  - rewrite iter_end. case_decide.
    + destruct (ET.attrib elem !! "key") as [k|]; [|done].
      etrans; [|apply IH]. simpl. rewrite dom_insert_L. set_solver.
    + case_decide; [|apply IH].
      destruct (make_wikipage elem self) as [[[page|] s']|e]; [| |done];
        simpl; apply IH.
Qed.

(** X7.  The iteration only ever adds to the registry: a key or a name that is
    registered before is still registered after, whatever the stream. *)
Theorem registry_never_shrinks (self : DumpParser)
    (evs : list (ET.event * ET.Element)) (failure : option exn) :
  dom (key2ns self) ⊆ dom (key2ns (final (__iter__ self evs failure))) ∧
  dom (ns2key self) ⊆ dom (ns2key (final (__iter__ self evs failure))).
Proof.
  split; [apply iter_dom_key2ns|].
  revert self. induction evs as [|[[] elem] evs IH]; intros self.
  - by rewrite iter_nil.
  - rewrite iter_start. apply IH.
  - rewrite iter_end. case_decide.
    + destruct (ET.attrib elem !! "key") as [k|]; [|done].
      etrans; [|apply IH]. simpl. rewrite dom_insert_L. set_solver.
    + case_decide; [|apply IH].
      destruct (make_wikipage elem self) as [[[page|] s']|e]; [| |done];
        simpl; apply IH.
Qed.

(** X6.  Every record handed out names a namespace key, and that key is in the
    registry the iteration leaves behind. *)
Theorem yielded_namespace_resolves (self : DumpParser)
    (evs : list (ET.event * ET.Element)) (failure : option exn)
    (page : WikiPage.t) :
  page ∈ yielded (__iter__ self evs failure) →
  ∃ k, WikiNamespace.key (WikiPage.ns page) = Some k ∧
       k ∈ dom (key2ns (final (__iter__ self evs failure))).
Proof.
  revert self. induction evs as [|[[] elem] evs IH]; intros self.
  - rewrite iter_nil. simpl. by intros ?%elem_of_nil.
  - rewrite iter_start. apply IH.
  - rewrite iter_end. case_decide.
    + destruct (ET.attrib elem !! "key"); [apply IH|].
      by intros ?%elem_of_nil.
    + case_decide; [|apply IH].
      destruct (make_wikipage elem self) as [[[p|] s']|e] eqn:E.
      * simpl. intros [->|Hin]%elem_of_cons; [|by apply IH].
        pose proof (make_wikipage_fields _ _ _ _ E) as (_ & _ & Hkey & _).
        rewrite make_wikipage_unfold in E. simpl in E.
        destruct (getitem (key2ns self) _) as [name|] eqn:G; [|done].
        apply getitem_inv in G as (k & Hk & Hl).
        exists k. split; [congruence|].
        apply (iter_dom_key2ns self evs failure), elem_of_dom. eauto.
      * apply IH.
      * by intros ?%elem_of_nil.
Qed.

Lemma yielded_namespace_resolves_witness :
  ∃ k, WikiNamespace.key (WikiPage.ns Fixture.redirect_record) = Some k ∧
       k ∈ dom (key2ns (final (__iter__ new (ET.events Fixture.dump) None))).
Proof.
  apply (yielded_namespace_resolves new (ET.events Fixture.dump) None).
  rewrite dump_yields. apply list_elem_of_further, list_elem_of_here.
Defined.

Lemma declare_other_key (l : list ET.Element) (s : DumpParser) (k : string) :
  Forall (λ e, ET.attrib e !! "key" ≠ Some k) l →
  key2ns (foldl declare s l) !! k = key2ns s !! k.
Proof.
  revert s. induction l as [|e l IH]; intros s HF; [done|].
  inversion HF as [|? ? He Hl]; subst. simpl. rewrite IH by done.
  unfold declare. destruct (ET.attrib e !! "key") as [k'|]; [|done].
  simpl. apply lookup_insert_ne. congruence.
Qed.

(** X9.  When a key is declared more than once, the last declaration decides
    the name a later lookup gives. *)
Theorem last_declaration_wins (self : DumpParser)
    (evs : list (ET.event * ET.Element)) (l1 l2 : list ET.Element)
    (e : ET.Element) (k : string) :
  raised (__iter__ self evs None) = None →
  namespaces evs = l1 ++ e :: l2 →
  ET.attrib e !! "key" = Some k →
  Forall (λ e', ET.attrib e' !! "key" ≠ Some k) l2 →
  key2ns (final (__iter__ self evs None)) !! k = Some (py_or (ET.text e) "").
Proof.
  intros Hr Hns Hk Hl2. rewrite iter_final_declared, Hns by done.
  rewrite foldl_app. simpl. rewrite declare_other_key by done.
  unfold declare. rewrite Hk. simpl. apply lookup_insert_eq.
Qed.

Lemma last_declaration_wins_witness :
  key2ns (final (__iter__ new
                   [(ET.end_, Cases.talk_namespace);
                    (ET.end_, Cases.renamed_namespace);
                    (ET.end_, Fixture.untitled_page)] None)) !! "1"
    = Some (py_or (ET.text Cases.renamed_namespace) "").
Proof.
  apply (last_declaration_wins new _ [Cases.talk_namespace] []
           Cases.renamed_namespace "1"); (reflexivity || constructor).
Defined.

(** X10.  Declaring a key again under another name leaves the old name in the
    reverse dictionary: the old name still leads to the key, while the key
    now leads to the new name. *)
Theorem redeclared_key_keeps_old_name (e1 e2 : ET.Element)
    (self : DumpParser) (k n1 n2 : string) :
  ET.attrib e1 !! "key" = Some k → ET.text e1 = Some n1 →
  ET.attrib e2 !! "key" = Some k → ET.text e2 = Some n2 →
  n1 ≠ n2 →
  ∃ s1 s2,
    add_namespace e1 self = Ok (None, s1) ∧
    add_namespace e2 s1 = Ok (None, s2) ∧
    ns2key s2 !! n1 = Some k ∧
    key2ns s2 !! k = Some n2 ∧
    ns2key s2 !! n2 = Some k.
Proof.
  intros Hk1 Ht1 Hk2 Ht2 Hne.
  rewrite !add_namespace_unfold, Hk1, Ht1, py_or_Some.
  eexists _, _. split; [done|].
  rewrite add_namespace_unfold, Hk2, Ht2, py_or_Some.
  split; [done|]. simpl.
  rewrite lookup_insert_ne by done. by rewrite !lookup_insert_eq.
Qed.

Lemma redeclared_key_keeps_old_name_witness :
  ∃ s1 s2,
    add_namespace Cases.talk_namespace new = Ok (None, s1) ∧
    add_namespace Cases.renamed_namespace s1 = Ok (None, s2) ∧
    ns2key s2 !! "Talk" = Some "1" ∧
    key2ns s2 !! "1" = Some "Discussion" ∧
    ns2key s2 !! "Discussion" = Some "1".
Proof.
  apply (redeclared_key_keeps_old_name Cases.talk_namespace
           Cases.renamed_namespace new "1" "Talk" "Discussion");
    (reflexivity || discriminate).
Defined.

Lemma foldl_declare_key2ns (l : list ET.Element) :
  key2ns (foldl declare new l) = list_to_map (reverse (omap declaration l)).
Proof.
  induction l as [|e l IH] using rev_ind; [done|].
  rewrite foldl_snoc, omap_app. unfold declare at 1. simpl.
  unfold declaration at 2.
  destruct (ET.attrib e !! "key") as [k|]; simpl.
  - by rewrite reverse_snoc, IH.
  - by rewrite app_nil_r.
Qed.

Lemma foldl_declare_ns2key (l : list ET.Element) :
  ns2key (foldl declare new l) =
    list_to_map (reverse (prod_swap <$> omap declaration l)).
Proof.
  induction l as [|e l IH] using rev_ind; [done|].
  rewrite foldl_snoc, omap_app, fmap_app. unfold declare at 1. simpl.
  unfold declaration at 2.
  destruct (ET.attrib e !! "key") as [k|]; simpl.
  - by rewrite reverse_snoc, IH.
  - by rewrite app_nil_r.
Qed.

Lemma fst_prod_swap {A B : Type} (l : list (A * B)) :
  (prod_swap <$> l).*1 = l.*2.
Proof. induction l as [|[a b] l IH]; [done|]. cbn. f_equal. exact IH. Qed.

Lemma iter_all_keyed (self : DumpParser)
    (evs : list (ET.event * ET.Element)) :
  raised (__iter__ self evs None) = None →
  length (declarations evs) = length (namespaces evs).
Proof.
  unfold declarations.
  revert self. induction evs as [|[[] elem] evs IH]; intros self.
  - done.
  - rewrite iter_start. apply IH.
  - rewrite iter_end, namespaces_cons_end. case_decide.
    + simpl. unfold declaration at 1.
      destruct (ET.attrib elem !! "key"); [|done].
      intros Hr. simpl. f_equal. by eapply IH.
    + case_decide; [|apply IH].
      destruct (make_wikipage elem self) as [[[page|] s']|e]; [| |done];
        simpl; apply IH.
Qed.

(** X11.  When an iteration of a fresh parser raises nothing and the dump
    declares no key twice and no name twice, the two dictionaries are
    inverse to each other: the forward dictionary maps a key to a name
    exactly when the reverse dictionary maps that name to that key. *)
Theorem registry_inverse_when_unique (evs : list (ET.event * ET.Element))
    (k n : string) :
  raised (__iter__ new evs None) = None →
  NoDup (declarations evs).*1 →
  NoDup (declarations evs).*2 →
  key2ns (final (__iter__ new evs None)) !! k = Some n ↔
  ns2key (final (__iter__ new evs None)) !! n = Some k.
Proof.
  intros Hr Hkeys Hnames. rewrite iter_final_declared by done.
  rewrite foldl_declare_key2ns, foldl_declare_ns2key.
  fold (declarations evs).
  rewrite <- !elem_of_list_to_map.
  - rewrite !elem_of_reverse, list_elem_of_fmap. split.
    + intros Hin. by exists (k, n).
    + by intros ([k' n'] & [= -> ->] & Hin).
  - by rewrite fmap_reverse, reverse_Permutation, fst_prod_swap.
  - by rewrite fmap_reverse, reverse_Permutation.
Qed.

Lemma registry_inverse_when_unique_witness :
  key2ns (final (__iter__ new (ET.events Fixture.dump) None)) !! "1"
    = Some "Talk" ↔
  ns2key (final (__iter__ new (ET.events Fixture.dump) None)) !! "Talk"
    = Some "1".
Proof.
  apply (registry_inverse_when_unique (ET.events Fixture.dump) "1" "Talk").
  - reflexivity.
  - apply (bool_decide_unpack _). vm_compute. exact I.
  - apply (bool_decide_unpack _). vm_compute. exact I.
Defined.

(** X12.  When an iteration of a fresh parser raises nothing and no two
    declarations give the same name, the reverse dictionary ends with one
    entry per namespace declaration (what the repository's test counts). *)
Theorem reverse_registry_size (evs : list (ET.event * ET.Element)) :
  raised (__iter__ new evs None) = None →
  NoDup (declarations evs).*2 →
  size (ns2key (final (__iter__ new evs None))) = length (namespaces evs).
Proof.
  intros Hr Hnames. rewrite iter_final_declared by done.
  rewrite foldl_declare_ns2key. fold (declarations evs).
  rewrite map_size_list_to_map.
  - rewrite length_reverse, length_fmap. by eapply iter_all_keyed.
  - by rewrite fmap_reverse, reverse_Permutation, fst_prod_swap.
Qed.

Lemma reverse_registry_size_witness :
  size (ns2key (final (__iter__ new (ET.events Fixture.dump) None)))
    = length (namespaces (ET.events Fixture.dump)).
Proof.
  apply (reverse_registry_size (ET.events Fixture.dump)).
  - reflexivity.
  - apply (bool_decide_unpack _). vm_compute. exact I.
Defined.

(** ** [process_input] and [process_dump] *)

Section Consumers_facts.
Context {C R E : Type}.
Variable page_cb : WikiPage.t → C → (E + option R) * C.

Lemma process_input_loop_end (self : DumpParser) (elem : ET.Element)
    (rest : list (ET.event * ET.Element)) (failure : option exn)
    (c : C) (lst : list R) :
  process_input_loop page_cb self ((ET.end_, elem) :: rest) failure c lst =
    if decide (is_namespace elem) then
      match ET.attrib elem !! "key" with
      | None => (inl (FromParser (KeyError (Some "key"))), c)
      | Some k =>
          process_input_loop page_cb
            (register k (py_or (ET.text elem) "") self) rest failure c lst
      end
    else if decide (is_page elem) then
      match make_wikipage elem self with
      | Raise e => (inl (FromParser e), c)
      | Ok (Some page, _) =>
          match page_cb page c with
          | (inl e, c') => (inl (FromCallback e), c')
          | (inr ret, c') =>
              process_input_loop page_cb self rest failure c' (collect lst ret)
          end
      | Ok (None, _) => process_input_loop page_cb self rest failure c lst
      end
    else process_input_loop page_cb self rest failure c lst.
Proof.
  simpl. unfold tag2fn, is_namespace, is_page.
  repeat case_decide; try done.
  - rewrite add_namespace_unfold. by destruct (ET.attrib elem !! "key").
  - destruct (make_wikipage elem self) as [[r s']|e] eqn:Hmk; [|done].
    apply make_wikipage_inv in Hmk as [-> [page ->]]. done.
Qed.

Lemma process_input_loop_feed (self : DumpParser)
    (evs : list (ET.event * ET.Element)) (failure : option exn)
    (c : C) (lst : list R) :
  process_input_loop page_cb self evs failure c lst =
    let o := __iter__ self evs failure in
    match feed page_cb (yielded o) c lst with
    | (inl e, c') => (inl (FromCallback e), c')
    | (inr lst', c') =>
        match raised o with
        | None => (inr lst', c')
        | Some e => (inl (FromParser e), c')
        end
    end.
Proof.
  revert self c lst. induction evs as [|[[] elem] evs IH]; intros self c lst.
  - rewrite iter_nil. simpl. by destruct failure.
  - rewrite iter_start. apply IH.
  - rewrite process_input_loop_end, iter_end. case_decide.
    + destruct (ET.attrib elem !! "key"); [apply IH|done].
    + case_decide; [|apply IH].
      destruct (make_wikipage elem self) as [[[page|] s']|e]; [| |done].
      * simpl. destruct (page_cb page c) as [[e|ret] c']; [done|]. apply IH.
      * apply IH.
Qed.

(** X13.  [process_input] gives what running the callback over the yielded
    pages, in order, gives: the callback's exception if it raises on one
    of them; else the parser's exception if the iteration raised, after
    the callback has run on every page yielded before; else the list of
    the callback's results that are not [None]. *)
Theorem process_input_as_feed (evs : list (ET.event * ET.Element))
    (failure : option exn) (c : C) :
  process_input page_cb evs failure c =
    let o := __iter__ new evs failure in
    match feed page_cb (yielded o) c [] with
    | (inl e, c') => (inl (FromCallback e), c')
    | (inr lst, c') =>
        match raised o with
        | None => (inr lst, c')
        | Some e => (inl (FromParser e), c')
        end
    end.
Proof. apply process_input_loop_feed. Qed.

End Consumers_facts.

Lemma omap_length_le {A B : Type} (g : A → option B) (l : list A) :
  length (omap g l) ≤ length l.
Proof.
  induction l as [|a l IH]; csimpl; [done|]. destruct (g a); csimpl; lia.
Qed.

Lemma yielded_length_le (self : DumpParser)
    (evs : list (ET.event * ET.Element)) (failure : option exn) :
  length (yielded (__iter__ self evs failure)) ≤ length (pages evs).
Proof.
  revert self. induction evs as [|[[] elem] evs IH]; intros self.
  - by rewrite iter_nil.
  - rewrite iter_start. apply IH.
  - rewrite iter_end, pages_cons_end. case_decide.
    + rewrite decide_False by (intros ?; by eapply page_tag_ne_namespace_tag).
      destruct (ET.attrib elem !! "key"); [apply IH|simpl; lia].
    + case_decide; [|apply IH].
      destruct (make_wikipage elem self) as [[[page|] s']|e]; simpl.
      * specialize (IH self). lia.
      * specialize (IH self). lia.
      * lia.
Qed.

Section Pure_callback.
Context {R : Type}.
Variable f : WikiPage.t → option R.

Lemma feed_pure (pgs : list WikiPage.t) (lst : list R) :
  feed (pure_cb f) pgs () lst = (inr (lst ++ omap f pgs), ()).
Proof.
  revert lst. induction pgs as [|page pgs IH]; intros lst; simpl.
  - by rewrite app_nil_r.
  - rewrite IH. unfold collect.
    destruct (f page); [by rewrite <- app_assoc|done].
Qed.

(** X14.  With a callback that only computes, [process_input] returns the
    callback's results in the order of the pages, the [None] results left
    out, so never more results than pages; and it returns no list at all
    when the iteration raises. *)
Theorem process_input_in_page_order (evs : list (ET.event * ET.Element))
    (failure : option exn) :
  let o := __iter__ new evs failure in
  process_input (pure_cb f) evs failure () =
    (match raised o with
     | None => inr (omap f (yielded o))
     | Some e => inl (FromParser e)
     end, ()) ∧
  length (omap f (yielded o)) ≤ length (pages evs).
Proof.
  simpl. split.
  - unfold process_input. rewrite process_input_loop_feed. simpl.
    rewrite feed_pure. simpl.
    by destruct (raised (__iter__ new evs failure)).
  - etrans; [apply omap_length_le|apply yielded_length_le].
Qed.

End Pure_callback.

Section Phase1_facts.
Context {C E : Type}.
Variable add_page : WikiPage.t → C → option E * C.
Variable analyze_templates : C → option E * C.

Lemma feed_phase1 (pgs : list WikiPage.t) (c : C) (lst : list unit) :
  feed (phase1_page_handler add_page) pgs c lst =
    match add_pages add_page pgs c with
    | (Some e, c') => (inl e, c')
    | (None, c') => (inr lst, c')
    end.
Proof.
  revert c. induction pgs as [|page pgs IH]; intros c; simpl; [done|].
  unfold phase1_page_handler.
  destruct (add_page page c) as [[e|] c']; [done|]. apply IH.
Qed.

(** X15.  [process_dump] hands the pages to [ctx.add_page] one by one in the
    order they are yielded, and calls [ctx.analyze_templates] once, after
    the last page, only if neither the parser nor [add_page] raised: when
    the iteration raises, the context keeps the pages added so far and is
    not analyzed. *)
Theorem process_dump_adds_then_analyzes
    (evs : list (ET.event * ET.Element)) (failure : option exn) (c : C) :
  process_dump add_page analyze_templates evs failure c =
    let o := __iter__ new evs failure in
    match add_pages add_page (yielded o) c with
    | (Some e, c') => (Some (FromCallback e), c')
    | (None, c') =>
        match raised o with
        | Some e => (Some (FromParser e), c')
        | None =>
            match analyze_templates c' with
            | (Some e, c'') => (Some (FromCallback e), c'')
            | (None, c'') => (None, c'')
            end
        end
    end.
Proof.
  unfold process_dump, process_input. rewrite process_input_loop_feed.
  simpl. rewrite feed_phase1.
  destruct (add_pages add_page _ c) as [[e|] c']; [done|].
  by destruct (raised (__iter__ new evs failure)).
Qed.

End Phase1_facts.

(** ** The scanner's handlers *)

Section Scanner_facts.
Import Scanner.
Variable decode : string → option string.
Variable parse_attrs : string → option (gmap string string).

(** X16.  Opening a tag and closing it at once, as for a self-closing tag,
    leaves the stack of open tags as it was, and the pop cannot fail. *)
Theorem self_closing_tag_keeps_stack (tg ar : string) (st : Scanner.t) :
  let r := handle_end decode parse_attrs tg (handle_start tg ar st) in
  stack r.2 = stack st ∧ r.1 ≠ inl IndexError.
Proof.
  unfold handle_end, handle_start, with_page. simpl.
  repeat case_match; simpl; done.
Qed.

(** X17.  Everything between an opened [contributor] and its close is passed
    over: closing an inner tag, whatever bytes were collected for it and
    whether or not they decode, yields nothing and leaves the page fields
    and the registry untouched.  (An inner [page] would reset the fields
    when opened.) *)
Theorem inside_contributor_nothing_is_read (tg ar ar0 : string)
    (chunks : list string) (st : Scanner.t) :
  tg ≠ "page" → tg ≠ "contributor" →
  let st1 := handle_start tg ar (handle_start "contributor" ar0 st) in
  let st2 := mk (tag st1) (stack st1) (stack_ignore st1) chunks (args st1)
                (page st1) (registry st1) in
  let r := handle_end decode parse_attrs tg st2 in
  r.1 = inr None ∧
  page r.2 = page st ∧
  registry r.2 = registry st ∧
  stack r.2 = "contributor" :: stack st ∧
  stack_ignore r.2 = true.
Proof.
  intros Hp Hc.
  assert (tg ∉ xml_stack_ignore) as Hout.
  { unfold xml_stack_ignore. by intros ->%list_elem_of_singleton. }
  unfold handle_end, handle_start. cbn [stack stack_ignore page registry].
  rewrite !(decide_False (P := tg = "page")) by done.
  rewrite !(decide_False (P := tg ∈ xml_stack_ignore)) by done.
  rewrite (decide_False (P := "contributor" = "page")) by done.
  rewrite (decide_True (P := "contributor" ∈ xml_stack_ignore))
    by (unfold xml_stack_ignore; apply list_elem_of_here).
  by case_decide.
Qed.

(** X18.  Closing a tag never touches the reverse dictionary, never removes a
    forward entry, and leaves the forward dictionary alone unless the tag
    is [namespace]: unlike [add_namespace], the scanner registers only
    the direction from key to name. *)
Theorem handle_end_registers_forward_only (tg : string) (st : Scanner.t) :
  let st' := (handle_end decode parse_attrs tg st).2 in
  ns2key (registry st') = ns2key (registry st) ∧
  dom (key2ns (registry st)) ⊆ dom (key2ns (registry st')) ∧
  (registry st' = registry st ∨ tg = "namespace").
Proof.
  unfold handle_end, with_page.
  repeat case_match; simpl; (split; [done|]);
    (split; [first [done | rewrite dom_insert_L; set_solver]|]);
    first [by left | by right].
Qed.

(** X19.  What closing a page gives when it is not suppressed and its
    namespace key resolves: a record with the title read so far; for a
    redirect (a non-empty target) the text and the model are dropped, and
    an empty target counts as no redirect at all. *)
Theorem handle_end_page_record (st : Scanner.t) (ptag : string)
    (rest : list string) (d k name : string) :
  stack st = ptag :: rest →
  stack_ignore st = false ∨ ptag ∈ xml_stack_ignore →
  decode (String.concat "" (data st)) = Some d →
  nskey (page st) = Some (Some k) →
  key2ns (registry st) !! k = Some name →
  ∃ rec,
    (handle_end decode parse_attrs "page" st).1 = inr (Some rec) ∧
    WikiPage.title rec = title (page st) ∧
    WikiPage.ns rec = WikiNamespace.mk name (Some k) ∧
    (truthy (redirect (page st)) = true →
     WikiPage.redirect rec = redirect (page st) ∧
     WikiPage.text rec = None ∧ WikiPage.model rec = None) ∧
    (truthy (redirect (page st)) = false →
     WikiPage.redirect rec = None ∧
     WikiPage.text rec = text (page st) ∧
     WikiPage.model rec = model (page st)).
Proof.
  intros Hst Hign Hd Hk Hname. unfold handle_end. rewrite Hst.
  assert ((if decide (ptag ∈ xml_stack_ignore) then false
           else stack_ignore st) = false) as ->.
  { case_decide; [done|]. by destruct Hign. }
  rewrite decide_False by (by vm_compute).
  rewrite Hd. simpl. rewrite Hk. simpl. rewrite Hname.
  destruct (truthy (redirect (page st))); eexists; simpl;
    (split; [done|]); (split; [done|]); (split; [done|]); split; done.
Qed.

(** X20.  A page that is closed right after it was opened has no namespace key,
    so closing it raises the [KeyError] of the registry subscript with key
    [None], whatever the state before. *)
Theorem empty_page_raises (ar : string) (st : Scanner.t) :
  stack_ignore st = false →
  decode "" = Some "" →
  (handle_end decode parse_attrs "page" (handle_start "page" ar st)).1
    = inl (Lookup (KeyError None)).
Proof.
  intros Hign Hd. unfold handle_end, handle_start. simpl.
  rewrite Hign, Hd. done.
Qed.

End Scanner_facts.

Lemma inside_contributor_nothing_is_read_witness :
  let st1 :=
    Scanner.handle_start "id" ""
      (Scanner.handle_start "contributor" "" Scanner.init) in
  let st2 :=
    Scanner.mk (Scanner.tag st1) (Scanner.stack st1)
      (Scanner.stack_ignore st1) ["42"] (Scanner.args st1)
      (Scanner.page st1) (Scanner.registry st1) in
  let r := Scanner.handle_end Some (λ _, Some ∅) "id" st2 in
  r.1 = inr None ∧
  Scanner.page r.2 = Scanner.page Scanner.init ∧
  Scanner.registry r.2 = Scanner.registry Scanner.init ∧
  Scanner.stack r.2 = "contributor" :: Scanner.stack Scanner.init ∧
  Scanner.stack_ignore r.2 = true.
Proof.
  apply (inside_contributor_nothing_is_read Some (λ _, Some ∅)
           "id" "" "" ["42"] Scanner.init); discriminate.
Defined.

Lemma handle_end_page_record_witness :
  ∃ rec,
    (Scanner.handle_end Some (λ _, Some ∅) "page" Cases.closing_redirect).1
      = inr (Some rec) ∧
    WikiPage.redirect rec = Some "dog" ∧
    WikiPage.text rec = None ∧ WikiPage.model rec = None.
Proof.
  destruct (handle_end_page_record Some (λ _, Some ∅)
              Cases.closing_redirect "page" [] "" "0" "")
    as (rec & Hrec & _ & _ & Hred & _); try reflexivity.
  { by left. }
  exists rec. split; [exact Hrec|]. apply Hred. reflexivity.
Defined.

Lemma empty_page_raises_witness :
  (Scanner.handle_end Some (λ _, Some ∅) "page"
     (Scanner.handle_start "page" "" Scanner.init)).1
    = inl (Scanner.Lookup (KeyError None)).
Proof.
  apply (empty_page_raises Some (λ _, Some ∅) "" Scanner.init);
    reflexivity.
Defined.
